(** * Request-context composition and authorization resolution

    A shallow embedding of
    - [packages/graphql/src/schema/resolvers/wrapper.ts]
      ([wrapResolver], [wrapSubscription], [getAuthorizationContext]), and
    - the schema-model class [Operation] ([addAttribute], [addAnnotation],
      [findAttribute] and its constructor),
    together with the properties of these functions.

    JavaScript objects are finite maps from property names to values, object
    spread is map union, mutable objects live in an explicit state, and calls
    to collaborators (decoder, database, executor constructor, next resolver)
    are recorded in an event trace. *)

From stdpp Require Import gmap strings list fin_maps.

#[local] Set Warnings "-register-all".
#[local] Open Scope string_scope.
#[local] Open Scope list_scope.

(** ** JavaScript values *)

Module JS.

(** [new Cypher.NamedParam(name, value)]. *)
Record NamedParam (V : Type) : Type := mkNamedParam {
  param_name : string;
  param_value : V;
}.

(** [new Executor({ executionContext, cypherQueryOptions, sessionConfig })]. *)
Record Executor (V : Type) : Type := mkExecutor {
  executionContext : V;
  cypherQueryOptions : V;
  sessionConfig : V;
}.

(** A [Neo4jDatabaseInfo] value.  The class is declared outside the wrapper;
    the wrapper reads its [version] property only, and tests it for
    truthiness. *)
Record Neo4jDatabaseInfo (V : Type) : Type := mkNeo4jDatabaseInfo {
  version : V;
  edition : V;
}.

(** The [AuthorizationContext] object literal built by
    [getAuthorizationContext].  A property that the literal leaves out reads
    as [undefined]: [jwt] is then [VUndefined] and [claims] is [None]. *)
Record AuthorizationContext (V : Type) : Type := mkAuthorizationContext {
  isAuthenticated : bool;
  jwt : V;
  jwtParam : NamedParam V;
  isAuthenticatedParam : NamedParam V;
  claims : option (gmap string string);
}.

Arguments mkNamedParam {V} _ _.
Arguments param_name {V} _.
Arguments param_value {V} _.
Arguments mkExecutor {V} _ _ _.
Arguments executionContext {V} _.
Arguments cypherQueryOptions {V} _.
Arguments sessionConfig {V} _.
Arguments mkNeo4jDatabaseInfo {V} _ _.
Arguments version {V} _.
Arguments edition {V} _.
Arguments mkAuthorizationContext {V} _ _ _ _ _.
Arguments isAuthenticated {V} _.
Arguments jwt {V} _.
Arguments jwtParam {V} _.
Arguments isAuthenticatedParam {V} _.
Arguments claims {V} _.

(** Values that flow through the wrapper.  [VHost] stands for an opaque host
    object (a driver, session or transaction, the schema model, the node and
    relationship lists, a subscriptions engine); [VMap] is a JavaScript
    [Map<string, string>]. *)
Inductive value : Type :=
| VUndefined
| VNull
| VBool (b : bool)
| VNum (n : Z)
| VStr (s : string)
| VObj (o : gmap string value)
| VMap (m : gmap string string)
| VHost (id : nat)
| VExecutor (e : Executor value)
| VDatabaseInfo (d : Neo4jDatabaseInfo value)
| VAuthorization (a : AuthorizationContext value).

Abbreviation obj := (gmap string value).

(** ECMAScript [ToBoolean]: the condition of [if (x)], [!x], [x || y]. *)
Definition toBoolean (v : value) : bool :=
  match v with
  | VUndefined | VNull => false
  | VBool b => b
  | VNum n => negb (n =? 0)%Z
  | VStr s => negb (String.eqb s "")
  | VObj _ | VMap _ | VHost _
  | VExecutor _ | VDatabaseInfo _ | VAuthorization _ => true
  end.

(** Property read [o.k] on an object: a missing property reads [undefined]. *)
Definition get (o : obj) (k : string) : value := default VUndefined (o !! k).

(** Optional-chaining read [v?.k].  On [undefined] and [null] the result is
    [undefined]; the other non-object values carry none of the properties the
    wrapper reads. *)
Definition getProp (v : value) (k : string) : value :=
  match v with
  | VObj o => get o k
  | _ => VUndefined
  end.

(** The own enumerable properties copied by a spread element [...v].
    Spreading [undefined] copies nothing; the contexts and connection
    parameters are records (plain objects) wherever they are defined. *)
Definition spread (v : value) : obj :=
  match v with
  | VObj o => o
  | _ => ∅
  end.

(** [a || b]. *)
Definition or_else (a b : value) : value := if toBoolean a then a else b.

(** [Boolean(v)]. *)
Definition Boolean (v : value) : value := VBool (toBoolean v).

(** An optional [T] (with [T] an object type) as a value. *)
Definition of_option {T} (f : T → value) (o : option T) : value :=
  match o with
  | Some t => f t
  | None => VUndefined
  end.

(** Thrown values. *)
Inductive exn : Type :=
| Error (message : string)
| Neo4jError (message code : string)
| Neo4jGraphQLSchemaValidationError (message : string).

(** Completion of a call: a returned value or a thrown exception.  An
    [async] function that rejects is a [Throw]; [await] re-raises it. *)
Inductive outcome (A : Type) : Type :=
| Return (a : A)
| Throw (e : exn).

Arguments Return {A} _.
Arguments Throw {A} _.

End JS.

Export JS.

(** ** Effects: state, exceptions and a trace of collaborator calls *)

Module Eff.

Section Monad.
(** [S] is the mutable state, [E] the type of recorded events. *)
Context {S E : Type}.

Definition M (A : Type) : Type := S → outcome A * S * list E.

Definition ret {A} (a : A) : M A := λ s, (Return a, s, []).

Definition bind {A B} (m : M A) (k : A → M B) : M B :=
  λ s, match m s with
       | (Return a, s', t) =>
           let '(r, s'', t') := k a s' in (r, s'', t ++ t')
       | (Throw e, s', t) => (Throw e, s', t)
       end.

(** [throw e]. *)
Definition throw {A} (e : exn) : M A := λ s, (Throw e, s, []).

(** [try { m } catch (e) { h e }]: state changes and events of [m] up to
    the throw are kept. *)
Definition try_catch {A} (m : M A) (h : exn → M A) : M A :=
  λ s, match m s with
       | (Return a, s', t) => (Return a, s', t)
       | (Throw e, s', t) =>
           let '(r, s'', t') := h e s' in (r, s'', t ++ t')
       end.

Definition read : M S := λ s, (Return s, s, []).
Definition modify (f : S → S) : M unit := λ s, (Return tt, f s, []).

(** A call to a collaborator: the call is recorded, then completes. *)
Definition call {A} (ev : E) (r : outcome A) : M A := λ s, (r, s, [ev]).

(** [for (const x of l) { body x }]. *)
Fixpoint for_of {A} (l : list A) (body : A → M unit) : M unit :=
  match l with
  | [] => ret tt
  | x :: l' => bind (body x) (λ _, for_of l' body)
  end.

(** [wp m s Q]: running [m] from state [s] ends in a result, a state and
    a trace that satisfy [Q]. *)
Definition wp {A} (m : M A) (s : S)
    (Q : outcome A → S → list E → Prop) : Prop :=
  let '(r, s', t) := m s in Q r s' t.
End Monad.

Arguments M : clear implicits.

End Eff.

Export Eff.

Declare Scope eff_scope.
Delimit Scope eff_scope with eff.
Notation "'let*' x ':=' m 'in' k" := (bind m (λ x, k))
  (at level 10, x name, m at level 100, k at level 200) : eff_scope.
Notation "m '>>' k" := (bind m (λ _, k))
  (at level 100, k at level 200, right associativity) : eff_scope.
#[local] Open Scope eff_scope.

(** ** The resolver wrappers ([wrapper.ts]) *)

Module Wrapper.

(** [Neo4jGraphQLAuthorization]: the decoder capability.  [decode] reads the
    request context, [decodeBearerTokenWithVerify] a bearer token; either may
    reject. *)
Record Neo4jGraphQLAuthorization : Type := mkAuthorization {
  globalAuthentication : bool;
  decode : obj → outcome value;
  decodeBearerTokenWithVerify : value → outcome value;
}.

(** [WrapResolverArguments].  Optional members are [option]s; [Driver] is an
    opaque host object, named by its identity. *)
Record WrapResolverArguments : Type := mkArgs {
  driver : option nat;
  nodes : value;
  relationships : value;
  jwtPayloadFieldsMap : option (gmap string string);
  schemaModel : value;
  dbInfo : option (Neo4jDatabaseInfo value);
  features : obj;
  authorization : option Neo4jGraphQLAuthorization;
}.

(** The mutable state a request runs in: the caller's [context] object
    (which the wrapper mutates in place) and the module-level variable
    [let neo4jDatabaseInfo], shared by every wrapper of the process. *)
Record world : Type := mkWorld {
  context : obj;
  neo4jDatabaseInfo : option (Neo4jDatabaseInfo value);
}.

(** Calls to collaborators, in the order they are made. *)
Inductive event : Type :=
| EvDecode (context : obj)
    (* authorization.decode(context) *)
| EvDecodeBearerToken (token : value)
    (* authorization.decodeBearerTokenWithVerify(token) *)
| EvNewExecutor (e : Executor value)
    (* new Executor({...}) *)
| EvGetNeo4jDatabaseInfo (e : Executor value)
    (* getNeo4jDatabaseInfo(executor) *)
| EvNext (root args context info : value).
    (* next(root, args, context, info) *)

Abbreviation W := (M world event).

(** [context.k = v]. *)
Definition set_context (k : string) (v : value) : W unit :=
  modify (λ w, mkWorld (<[k := v]> (context w)) (neo4jDatabaseInfo w)).

(** [neo4jDatabaseInfo = d]. *)
Definition set_neo4jDatabaseInfo (d : Neo4jDatabaseInfo value) : W unit :=
  modify (λ w, mkWorld (context w) (Some d)).

(** [neo4jDatabaseInfo?.version]. *)
Definition optional_version (d : option (Neo4jDatabaseInfo value)) : value :=
  match d with
  | Some d => version d
  | None => VUndefined
  end.

(** The tail of [getAuthorizationContext] (lines 211-219), reached when the
    context carries a jwt or when no decoder is configured. *)
Definition authenticated_from_context : W (AuthorizationContext value) :=
  let* w := read in
  let isAuthenticated := true in
  let jwt := get (context w) "jwt" in
  ret (mkAuthorizationContext
         isAuthenticated
         jwt
         (mkNamedParam "jwt" jwt)
         (mkNamedParam "isAuthenticated" (VBool isAuthenticated))
         None).

Definition getAuthorizationContext
    (authorization : option Neo4jGraphQLAuthorization)
    (jwtPayloadFieldsMap : option (gmap string string))
  : W (AuthorizationContext value) :=
  let* w := read in
  if negb (toBoolean (get (context w) "jwt")) then
    match authorization with
    | Some authorization =>
        try_catch
          (let* jwt := call (EvDecode (context w))
                            (decode authorization (context w)) in
           set_context "jwt" jwt >>
           let* w := read in
           let isAuthenticated := true in
           ret (mkAuthorizationContext
                  isAuthenticated
                  (get (context w) "jwt")
                  (mkNamedParam "jwt" (get (context w) "jwt"))
                  (mkNamedParam "isAuthenticated" (VBool isAuthenticated))
                  jwtPayloadFieldsMap))
          (λ e,
           let isAuthenticated := false in
           ret (mkAuthorizationContext
                  isAuthenticated
                  VUndefined
                  (mkNamedParam "jwt" (VObj ∅))
                  (mkNamedParam "isAuthenticated" (VBool isAuthenticated))
                  None))
    | None => authenticated_from_context
    end
  else authenticated_from_context.

(** [const contextParams = context?.connectionParams || {}]. *)
Definition contextParams (context : value) : value :=
  or_else (getProp context "connectionParams") (VObj ∅).

(** The object literal [internalContext] of [wrapResolver], as a function
    of the variables it mentions:
    [{ nodes, relationships, schemaModel, features, subscriptionsEnabled,
       executor, neo4jDatabaseInfo, authorization: authorizationContext,
       ...context }]. *)
Definition internalContext (resolverArgs : WrapResolverArguments)
    (subscriptionsEnabled : value) (executor : Executor value)
    (neo4jDatabaseInfo : option (Neo4jDatabaseInfo value))
    (authorizationContext : AuthorizationContext value) (context : obj)
  : obj :=
  context ∪
  <["nodes" := nodes resolverArgs]>
  (<["relationships" := relationships resolverArgs]>
  (<["schemaModel" := schemaModel resolverArgs]>
  (<["features" := VObj (features resolverArgs)]>
  (<["subscriptionsEnabled" := subscriptionsEnabled]>
  (<["executor" := VExecutor executor]>
  (<["neo4jDatabaseInfo" := of_option VDatabaseInfo neo4jDatabaseInfo]>
  (<["authorization" := VAuthorization authorizationContext]> ∅))))))).

(** The message of the configuration error of [wrapResolver]. *)
Definition NO_DRIVER_MESSAGE : string :=
  "A Neo4j driver instance must either be passed to Neo4jGraphQL on construction, or a driver, session or transaction passed as context.executionContext in each request.".

(** The next resolver step, [next(root, args, context, info)]. *)
Abbreviation resolver :=
  (value → value → value → value → outcome value).

Section Collaborators.
(** The error code imported from [constants]. *)
Variable AUTH_FORBIDDEN_ERROR : string.
(** The version query imported from [classes/Neo4jDatabaseInfo]. *)
Variable getNeo4jDatabaseInfo :
  Executor value → outcome (Neo4jDatabaseInfo value).

(** [wrapResolver(resolverArgs)(next)(root, args, context, info)]; the
    [context] argument is the object held by the state.  The [debug]
    logging at the head of the function has no effect on the result. *)
Definition wrapResolver (resolverArgs : WrapResolverArguments)
    (next : resolver) (root args info : value) : W value :=
  let* w := read in
  (if negb (toBoolean (get (context w) "executionContext")) then
     match driver resolverArgs with
     | None => throw (Error NO_DRIVER_MESSAGE)
     | Some d => set_context "executionContext" (VHost d)
     end
   else ret tt) >>
  let subscriptionsEnabled :=
    Boolean (get (features resolverArgs) "subscriptions") in
  let* authorizationContext :=
    getAuthorizationContext (authorization resolverArgs)
                            (jwtPayloadFieldsMap resolverArgs) in
  let* w := read in
  (if negb (toBoolean (get (context w) "jwt"))
   then set_context "jwt" (jwt authorizationContext)
   else ret tt) >>
  let* w := read in
  let executor :=
    mkExecutor (get (context w) "executionContext")
               (get (context w) "cypherQueryOptions")
               (get (context w) "sessionConfig") in
  call (EvNewExecutor executor) (Return tt) >>
  (match dbInfo resolverArgs with
   | Some dbInfo => set_neo4jDatabaseInfo dbInfo
   | None => ret tt
   end) >>
  let* w := read in
  (if negb (toBoolean (optional_version (neo4jDatabaseInfo w))) then
     let* d := call (EvGetNeo4jDatabaseInfo executor)
                    (getNeo4jDatabaseInfo executor) in
     set_neo4jDatabaseInfo d
   else ret tt) >>
  let* w := read in
  let internalContext :=
    internalContext resolverArgs subscriptionsEnabled executor
                    (neo4jDatabaseInfo w) authorizationContext (context w) in
  (* { ...context, ...internalContext } *)
  let composed := VObj (internalContext ∪ context w) in
  call (EvNext root args composed info) (next root args composed info).

(** [wrapSubscription(resolverArgs)(next)(root, args, context, info)];
    here [context] is [SubscriptionConnectionContext | undefined] and is
    only read. *)
Definition wrapSubscription (resolverArgs : WrapResolverArguments)
    (next : resolver) (root args context info : value) : W value :=
  let subscriptionsConfig := get (features resolverArgs) "subscriptions" in
  let schemaModel := schemaModel resolverArgs in
  let contextParams := contextParams context in
  if negb (toBoolean subscriptionsConfig) then
    call (EvNext root args context info) (next root args context info)
  else
    let subscriptionContext : obj :=
      <["plugin" := subscriptionsConfig]>
      (<["schemaModel" := schemaModel]> ∅) in
    let* subscriptionContext :=
      if toBoolean (getProp context "jwt") then
        ret (<["jwt" := getProp context "jwt"]> subscriptionContext)
      else
        match authorization resolverArgs with
        | Some authorization =>
            if negb (toBoolean (getProp contextParams "authorization"))
               && globalAuthentication authorization
            then throw (Neo4jError "Unauthenticated" AUTH_FORBIDDEN_ERROR)
            else
              try_catch
                (let token := getProp contextParams "authorization" in
                 let* jwt :=
                   call (EvDecodeBearerToken token)
                        (decodeBearerTokenWithVerify authorization token) in
                 ret (<["jwtPayloadFieldsMap" :=
                          of_option VMap (jwtPayloadFieldsMap resolverArgs)]>
                      (<["jwt" := jwt]> subscriptionContext)))
                (λ e,
                 if globalAuthentication authorization then throw e
                 else ret (<["jwt" := VUndefined]> subscriptionContext))
        | None => ret subscriptionContext
        end in
    (* { ...context, ...contextParams, ...subscriptionContext } *)
    let composed :=
      VObj (subscriptionContext
            ∪ (spread contextParams ∪ spread context)) in
    call (EvNext root args composed info) (next root args composed info).

(** One incoming request: the wrapper it goes through, the next step and
    the resolver arguments, among them its own context object. *)
Record request : Type := mkRequest {
  req_wrapper : WrapResolverArguments;
  req_next : resolver;
  req_root : value;
  req_args : value;
  req_context : obj;
  req_info : value;
}.

(** Requests served one after the other by the same process: each runs on
    its own context object and on the module-level [neo4jDatabaseInfo]
    left by the requests before it.  A request that throws does not stop
    the ones behind it.  The result is the final value of the module-level
    variable and the events of all the requests. *)
Fixpoint serve (rs : list request)
    (cache : option (Neo4jDatabaseInfo value))
  : option (Neo4jDatabaseInfo value) * list event :=
  match rs with
  | [] => (cache, [])
  | r :: rs' =>
      let '(_, w, t) :=
        wrapResolver (req_wrapper r) (req_next r)
                     (req_root r) (req_args r) (req_info r)
                     (mkWorld (req_context r) cache) in
      let '(cache', t') := serve rs' (neo4jDatabaseInfo w) in
      (cache', t ++ t')
  end.
End Collaborators.

(** Events that query the database for its version. *)
Definition is_version_query (e : event) : bool :=
  match e with
  | EvGetNeo4jDatabaseInfo _ => true
  | _ => false
  end.

(** Events that invoke the decoder. *)
Definition is_decode (e : event) : bool :=
  match e with
  | EvDecode _ | EvDecodeBearerToken _ => true
  | _ => false
  end.

End Wrapper.

(** ** The schema-model class [Operation] *)

Module SchemaModel.

Section Operation.
(** [Attribute] and [Annotation] are declared elsewhere in the schema
    model.  Of an attribute the class reads [attribute.name];  an
    annotation is an object, mapped by [annotationToKey] to its kind, a
    member of [keyof Annotations] ([key_text] is that key as the text
    interpolated into messages). *)
Context {Attribute Annotation AnnotationKey : Type}.
Context `{Countable AnnotationKey}.
Variable attribute_name : Attribute → string.
Variable annotationToKey : Annotation → AnnotationKey.
Variable key_text : AnnotationKey → string.

Record Operation : Type := mkOperation {
  name : string;
  attributes : gmap string Attribute;
  annotations : gmap AnnotationKey Annotation;
}.

(** Methods run on [this]; they record no events. *)
Abbreviation Method := (M Operation Empty_set).

Definition findAttribute (this : Operation) (name : string)
  : option Attribute :=
  attributes this !! name.

Definition addAttribute (attribute : Attribute) : Method unit :=
  let* this := read in
  if bool_decide (is_Some (attributes this !! attribute_name attribute))
  then
    throw (Neo4jGraphQLSchemaValidationError
             ("Attribute " +:+ attribute_name attribute
              +:+ " already exists in " +:+ name this))
  else
    modify (λ this,
      mkOperation (name this)
                  (<[attribute_name attribute := attribute]>
                     (attributes this))
                  (annotations this)).

Definition addAnnotation (annotation : Annotation) : Method unit :=
  let* this := read in
  let annotationKey := annotationToKey annotation in
  let existingAnnotation := annotations this !! annotationKey in
  if bool_decide (is_Some existingAnnotation)
  then
    throw (Neo4jGraphQLSchemaValidationError
             ("Annotation " +:+ key_text annotationKey
              +:+ " already exists in " +:+ name this))
  else
    modify (λ this,
      mkOperation (name this)
                  (attributes this)
                  (<[annotationKey := annotation]> (annotations this))).

(** The constructor body, run on the object left by the field
    initialisers ([attributes = new Map()], [annotations = {}]) and by
    [this.name = name].  The returned state is [this] as the constructor
    leaves it, also when it throws. *)
Definition constructor (name : string)
    (attributes : list Attribute) (annotations : list Annotation)
  : outcome unit * Operation * list Empty_set :=
  (for_of attributes addAttribute >>
   for_of annotations addAnnotation)
    (mkOperation name ∅ ∅).

(** [new Operation({ name, attributes, annotations })]. *)
Definition new_Operation (name : string)
    (attributes : list Attribute) (annotations : list Annotation)
  : outcome Operation :=
  match constructor name attributes annotations with
  | (Return _, this, _) => Return this
  | (Throw e, _, _) => Throw e
  end.
End Operation.

Arguments Operation : clear implicits.
Arguments Operation _ _ _ {_ _}.

(** The entries stored by [attributes.set(attribute.name, attribute)] and by
    [annotations[annotationKey] = annotation]. *)
Definition attribute_entry {Attribute}
    (attribute_name : Attribute → string) (a : Attribute)
  : string * Attribute :=
  (attribute_name a, a).

Definition annotation_entry {Annotation AnnotationKey}
    (annotationToKey : Annotation → AnnotationKey) (a : Annotation)
  : AnnotationKey * Annotation :=
  (annotationToKey a, a).

End SchemaModel.

(** ** Concrete inputs used to exercise the statements *)

Module Sample.
Import Wrapper.

Definition alice : obj := {["sub" := VStr "alice"]}.

(** A decoder that rejects every token, with global authentication on. *)
Definition rejecting : Neo4jGraphQLAuthorization :=
  mkAuthorization true
    (λ _, Throw (Error "invalid token"))
    (λ _, Throw (Error "invalid token")).

(** A decoder that accepts every token as [alice]'s. *)
Definition accepting : Neo4jGraphQLAuthorization :=
  mkAuthorization false (λ _, Return (VObj alice)) (λ _, Return (VObj alice)).

Definition info_5 : Neo4jDatabaseInfo value :=
  mkNeo4jDatabaseInfo (VStr "5.0.0") (VStr "enterprise").

Definition info_4 : Neo4jDatabaseInfo value :=
  mkNeo4jDatabaseInfo (VStr "4.4.0") (VStr "community").

(** A database that answers every version query with [info_5]. *)
Definition db_5 (e : Executor value) : outcome (Neo4jDatabaseInfo value) :=
  Return info_5.

(** A next step that returns its context argument. *)
Definition echo : resolver := λ root args context info, Return context.

Definition plain_args : WrapResolverArguments :=
  mkArgs (Some 7) (VHost 1) (VHost 2) None (VHost 3) None ∅ None.

(** Arguments of a wrapper with the subscriptions feature enabled. *)
Definition subscription_args (authorization : Neo4jGraphQLAuthorization)
  : WrapResolverArguments :=
  mkArgs None (VHost 1) (VHost 2) None (VHost 3) None
         {["subscriptions" := VHost 4]} (Some authorization).

(** A connection context whose connection parameters hold a token. *)
Definition connection_with_token : value :=
  VObj {["connectionParams" := VObj {["authorization" := VStr "Bearer t"]}]}.

(** Arguments of a wrapper built without a default driver. *)
Definition no_driver_args : WrapResolverArguments :=
  mkArgs None (VHost 1) (VHost 2) None (VHost 3) None ∅ None.

(** A caller context that names its own session. *)
Definition with_session : obj := {["executionContext" := VHost 9]}.

(** A caller context that supplies its own [executor] and [features]. *)
Definition overriding : obj :=
  <["executor" := VStr "mine"]> (<["features" := VNull]> with_session).

(** An override of the database information that has no version. *)
Definition info_no_version : Neo4jDatabaseInfo value :=
  mkNeo4jDatabaseInfo VUndefined (VStr "enterprise").

(** Arguments of a wrapper whose override is [info_5]. *)
Definition override_args : WrapResolverArguments :=
  mkArgs (Some 7) (VHost 1) (VHost 2) None (VHost 3) (Some info_5) ∅ None.

(** Arguments of a wrapper whose override has no version. *)
Definition no_version_args : WrapResolverArguments :=
  mkArgs (Some 7) (VHost 1) (VHost 2) None (VHost 3)
         (Some info_no_version) ∅ None.

(** A request with its own session through a wrapper without override. *)
Definition plain_request : request :=
  mkRequest plain_args echo VUndefined VUndefined with_session VUndefined.

(** Attributes and annotations as pairs of a name (a kind) and a payload. *)
Definition attr_id : string * nat := ("id", 1).
Definition attr_title : string * nat := ("title", 2).
Definition attr_id' : string * nat := ("id", 3).
Definition annot_cypher : string * nat := ("cypher", 1).
Definition annot_cypher' : string * nat := ("cypher", 2).

End Sample.

(** ** Further concrete inputs *)

Module Cases.
Import Wrapper Sample.

(** A claim-to-field mapping. *)
Definition claim_fields : gmap string string := {["roles" := "groups"]}.

(** A caller context with query and session options of its own. *)
Definition with_options : obj :=
  <["cypherQueryOptions" := VStr "runtime=slotted"]>
    (<["sessionConfig" := VStr "db=movies"]> with_session).

(** A database that cannot be reached. *)
Definition db_down (e : Executor value)
  : outcome (Neo4jDatabaseInfo value) :=
  Throw (Error "connection refused").

(** Arguments of a wrapper whose decoder rejects every token. *)
Definition rejecting_args : WrapResolverArguments :=
  mkArgs (Some 7) (VHost 1) (VHost 2) None (VHost 3) None ∅
         (Some rejecting).

(** A decoder that rejects every token, without global authentication. *)
Definition lenient : Neo4jGraphQLAuthorization :=
  mkAuthorization false
    (λ _, Throw (Error "invalid token"))
    (λ _, Throw (Error "invalid token")).

(** Arguments of a wrapper with subscriptions enabled and no decoder. *)
Definition open_subscription_args : WrapResolverArguments :=
  mkArgs None (VHost 1) (VHost 2) None (VHost 3) None
         {["subscriptions" := VHost 4]} None.

(** A connection whose parameters hold a token, a [jwt] and a [tenant],
    and whose context has a [tenant] and a [locale] of its own. *)
Definition connection_with_claims : value :=
  VObj (<["connectionParams" :=
            VObj (<["authorization" := VStr "Bearer t"]>
                  (<["jwt" := VObj alice]>
                   {["tenant" := VStr "from-params"]}))]>
        (<["tenant" := VStr "from-context"]>
         {["locale" := VStr "en"]})).

(** An annotation of another kind. *)
Definition annot_key : string * nat := ("key", 7).

(** Arguments of a wrapper whose decoder accepts every token. *)
Definition accepting_args : WrapResolverArguments :=
  mkArgs (Some 7) (VHost 1) (VHost 2) (Some claim_fields) (VHost 3) None ∅
         (Some accepting).

(** A caller context that carries claims and a session. *)
Definition with_claims : obj := <["jwt" := VObj alice]> with_session.

End Cases.

(** ** Rules for running effectful code *)

Module EffFacts.

Section WpRules.
Context {S E : Type}.
Implicit Types s : S.

Lemma wp_run {A} (m : M S E A) s (Q : outcome A → S → list E → Prop) :
  wp m s Q → ∀ r s' t, m s = (r, s', t) → Q r s' t.
Proof. unfold wp. intros HQ r s' t Hm. by rewrite Hm in HQ. Qed.

Lemma wp_bind {A B} (m : M S E A) (k : A → M S E B) s Q :
  wp m s (λ r s' t,
    match r with
    | Return a => wp (k a) s' (λ r' s'' t', Q r' s'' (t ++ t'))
    | Throw e => Q (Throw e) s' t
    end) →
  wp (bind m k) s Q.
Proof.
  unfold wp, bind. destruct (m s) as [[[a | e] s'] t]; [| done].
  by destruct (k a s') as [[r' s''] t'].
Qed.

Lemma wp_ret {A} (a : A) s (Q : outcome A → S → list E → Prop) :
  Q (Return a) s [] → wp (ret a) s Q.
Proof. done. Qed.

Lemma wp_throw {A} (e : exn) s (Q : outcome A → S → list E → Prop) :
  Q (Throw e) s [] → wp (throw e) s Q.
Proof. done. Qed.

Lemma wp_read s (Q : outcome S → S → list E → Prop) :
  Q (Return s) s [] → wp read s Q.
Proof. done. Qed.

Lemma wp_modify (f : S → S) s (Q : outcome unit → S → list E → Prop) :
  Q (Return tt) (f s) [] → wp (modify f) s Q.
Proof. done. Qed.

Lemma wp_call {A} (ev : E) (r : outcome A) s
    (Q : outcome A → S → list E → Prop) :
  Q r s [ev] → wp (call ev r) s Q.
Proof. done. Qed.
End WpRules.

End EffFacts.

Export EffFacts.

(** ** Properties of the authorization resolver *)

Module WrapperSpec.
Import Wrapper Sample.

(** Unfolds one layer of the effect combinators. *)
Ltac eff_unfold :=
  unfold bind, ret, throw, try_catch, read, modify, call,
         set_context, set_neo4jDatabaseInfo in *.

Lemma authenticated_from_context_run (w : world) :
  authenticated_from_context w =
  (Return (mkAuthorizationContext true (get (context w) "jwt")
             (mkNamedParam "jwt" (get (context w) "jwt"))
             (mkNamedParam "isAuthenticated" (VBool true)) None),
   w, []).
Proof. reflexivity. Qed.

(** C2. When the context carries no claims, a decoder is configured and the
    decode attempt throws, [getAuthorizationContext] returns (it does not
    throw) a verdict with [isAuthenticated = false] whose [jwtParam] wraps
    the empty object; the context is left as it was and the decoder was
    called once. *)
Theorem getAuthorizationContext_decode_failure
    (w : world) (authorization : Neo4jGraphQLAuthorization)
    (jwtPayloadFieldsMap : option (gmap string string)) (e : exn) :
  toBoolean (get (context w) "jwt") = false →
  decode authorization (context w) = Throw e →
  getAuthorizationContext (Some authorization) jwtPayloadFieldsMap w =
  (Return (mkAuthorizationContext false VUndefined
             (mkNamedParam "jwt" (VObj ∅))
             (mkNamedParam "isAuthenticated" (VBool false)) None),
   w, [EvDecode (context w)]).
Proof.
  intros Hjwt Hdecode. unfold getAuthorizationContext. eff_unfold.
  rewrite Hjwt, Hdecode. reflexivity.
Qed.

Lemma getAuthorizationContext_decode_failure_witness :
  getAuthorizationContext (Some rejecting) None (mkWorld ∅ None) =
  (Return (mkAuthorizationContext false VUndefined
             (mkNamedParam "jwt" (VObj ∅))
             (mkNamedParam "isAuthenticated" (VBool false)) None),
   mkWorld ∅ None, [EvDecode ∅]).
Proof.
  apply (getAuthorizationContext_decode_failure
           (mkWorld ∅ None) rejecting None (Error "invalid token"));
    reflexivity.
Defined.

(** C3. When the context already carries claims, the verdict is
    authenticated, [jwtParam] and [isAuthenticatedParam] are built from the
    claims of the context, no event is recorded (the decoder is not called)
    and the result is the same whatever decoder is configured. *)
Theorem getAuthorizationContext_reuses_claims
    (w : world) (authorization : option Neo4jGraphQLAuthorization)
    (jwtPayloadFieldsMap : option (gmap string string)) :
  toBoolean (get (context w) "jwt") = true →
  getAuthorizationContext authorization jwtPayloadFieldsMap w =
  (Return (mkAuthorizationContext true (get (context w) "jwt")
             (mkNamedParam "jwt" (get (context w) "jwt"))
             (mkNamedParam "isAuthenticated" (VBool true)) None),
   w, []).
Proof.
  intros Hjwt. unfold getAuthorizationContext. eff_unfold.
  rewrite Hjwt. reflexivity.
Qed.

Lemma getAuthorizationContext_reuses_claims_witness :
  getAuthorizationContext (Some rejecting) None
    (mkWorld {["jwt" := VObj alice]} None) =
  (Return (mkAuthorizationContext true (VObj alice)
             (mkNamedParam "jwt" (VObj alice))
             (mkNamedParam "isAuthenticated" (VBool true)) None),
   mkWorld {["jwt" := VObj alice]} None, []).
Proof.
  exact (getAuthorizationContext_reuses_claims
           (mkWorld {["jwt" := VObj alice]} None) (Some rejecting) None
           eq_refl).
Defined.

(** C4, as the code has it. When no decoder is configured and the context
    carries no claims (its [jwt] is falsy), the verdict has
    [isAuthenticated = true] and its [jwt] and [jwtParam] hold the [jwt] of
    the context as it is: undefined when the context has no [jwt]
    property or an undefined one.  The call returns, leaves the state as
    it was and records no event. *)
Theorem getAuthorizationContext_no_decoder
    (w : world) (jwtPayloadFieldsMap : option (gmap string string)) :
  toBoolean (get (context w) "jwt") = false →
  getAuthorizationContext None jwtPayloadFieldsMap w =
  (Return (mkAuthorizationContext true (get (context w) "jwt")
             (mkNamedParam "jwt" (get (context w) "jwt"))
             (mkNamedParam "isAuthenticated" (VBool true)) None),
   w, [])
  ∧
  (get (context w) "jwt" = VUndefined →
   getAuthorizationContext None jwtPayloadFieldsMap w =
   (Return (mkAuthorizationContext true VUndefined
              (mkNamedParam "jwt" VUndefined)
              (mkNamedParam "isAuthenticated" (VBool true)) None),
    w, [])).
Proof.
  intros Hjwt.
  assert (getAuthorizationContext None jwtPayloadFieldsMap w =
          authenticated_from_context w) as Hrun.
  { unfold getAuthorizationContext. eff_unfold. rewrite Hjwt.
    cbn [negb]. by destruct (authenticated_from_context w) as [[r w'] t]. }
  rewrite Hrun, authenticated_from_context_run. split; [reflexivity |].
  intros ->. reflexivity.
Qed.

Lemma getAuthorizationContext_no_decoder_witness :
  getAuthorizationContext None None (mkWorld {["jwt" := VStr ""]} None) =
  (Return (mkAuthorizationContext true (VStr "")
             (mkNamedParam "jwt" (VStr ""))
             (mkNamedParam "isAuthenticated" (VBool true)) None),
   mkWorld {["jwt" := VStr ""]} None, [])
  ∧
  getAuthorizationContext None None (mkWorld ∅ None) =
  (Return (mkAuthorizationContext true VUndefined
             (mkNamedParam "jwt" VUndefined)
             (mkNamedParam "isAuthenticated" (VBool true)) None),
   mkWorld ∅ None, []).
Proof.
  split.
  - exact (proj1 (getAuthorizationContext_no_decoder
                    (mkWorld {["jwt" := VStr ""]} None) None eq_refl)).
  - exact (proj2 (getAuthorizationContext_no_decoder
                    (mkWorld ∅ None) None eq_refl) eq_refl).
Defined.

(** C4 as stated fails: a context whose [jwt] is [null] carries no claims
    for the test of line 188, and with no decoder the verdict's [jwt] is
    that [null], not undefined. *)
Lemma getAuthorizationContext_no_decoder_null :
  toBoolean (get ({["jwt" := VNull]} : obj) "jwt") = false ∧
  getAuthorizationContext None None (mkWorld {["jwt" := VNull]} None) =
  (Return (mkAuthorizationContext true VNull (mkNamedParam "jwt" VNull)
             (mkNamedParam "isAuthenticated" (VBool true)) None),
   mkWorld {["jwt" := VNull]} None, []) ∧
  VNull ≠ VUndefined.
Proof. split; [reflexivity |]. split; [reflexivity | discriminate]. Qed.

(** The remaining path, on a concrete request: the decoder accepts, the
    claims are written to the context and the verdict carries them. *)
Example getAuthorizationContext_decode_success_run :
  getAuthorizationContext (Some accepting) None (mkWorld with_session None) =
  (Return (mkAuthorizationContext true (VObj alice)
             (mkNamedParam "jwt" (VObj alice))
             (mkNamedParam "isAuthenticated" (VBool true)) None),
   mkWorld (<["jwt" := VObj alice]> with_session) None,
   [EvDecode with_session]).
Proof. vm_compute. reflexivity. Qed.

(** ** Properties of the subscription wrapper *)

(** C1, as the code has it. When the subscriptions feature is enabled, a
    decoder is configured with global authentication, the connection context
    carries no claims and the connection parameters hold no authorization
    token, [wrapSubscription] throws the [Unauthenticated] error with the
    forbidden code; no event is recorded, so neither the decoder nor the
    next step is invoked. *)
Theorem wrapSubscription_requires_token
    (code : string) (resolverArgs : WrapResolverArguments)
    (authorization : Neo4jGraphQLAuthorization) (next : resolver)
    (root args context info : value) (w : world) :
  toBoolean (get (features resolverArgs) "subscriptions") = true →
  Wrapper.authorization resolverArgs = Some authorization →
  globalAuthentication authorization = true →
  toBoolean (getProp context "jwt") = false →
  toBoolean (getProp (contextParams context) "authorization") = false →
  wrapSubscription code resolverArgs next root args context info w =
  (Throw (Neo4jError "Unauthenticated" code), w, []).
Proof.
  intros Hsub Hauth Hglobal Hjwt Htoken.
  unfold wrapSubscription. eff_unfold.
  rewrite Hsub, Hjwt, Hauth, Htoken, Hglobal. reflexivity.
Qed.

Lemma wrapSubscription_requires_token_witness :
  wrapSubscription "FORBIDDEN" (subscription_args rejecting) echo
    VUndefined VUndefined (VObj ∅) VUndefined (mkWorld ∅ None) =
  (Throw (Neo4jError "Unauthenticated" "FORBIDDEN"), mkWorld ∅ None, []).
Proof.
  exact (wrapSubscription_requires_token "FORBIDDEN"
           (subscription_args rejecting) rejecting echo
           VUndefined VUndefined (VObj ∅) VUndefined (mkWorld ∅ None)
           eq_refl eq_refl eq_refl eq_refl eq_refl).
Defined.

(** C1 as stated fails: with the subscriptions feature disabled, a
    connection without claims and without a token, under a decoder with
    global authentication, reaches the next step and no error is thrown. *)
Lemma wrapSubscription_disabled_reaches_next :
  let resolverArgs :=
    mkArgs None (VHost 1) (VHost 2) None (VHost 3) None ∅ (Some rejecting) in
  Wrapper.authorization resolverArgs = Some rejecting ∧
  globalAuthentication rejecting = true ∧
  toBoolean (getProp (VObj ∅) "jwt") = false ∧
  toBoolean (getProp (contextParams (VObj ∅)) "authorization") = false ∧
  wrapSubscription "FORBIDDEN" resolverArgs echo
    VUndefined VUndefined (VObj ∅) VUndefined (mkWorld ∅ None) =
  (Return (VObj ∅), mkWorld ∅ None,
   [EvNext VUndefined VUndefined (VObj ∅) VUndefined]).
Proof. repeat split. Qed.

(** A connection with a token under an accepting decoder: the token is
    decoded and the claims are merged over the connection parameters. *)
Example wrapSubscription_decode_success_run :
  ∃ composed,
    wrapSubscription "FORBIDDEN" (subscription_args accepting) echo
      VUndefined VUndefined connection_with_token VUndefined
      (mkWorld ∅ None) =
    (Return composed, mkWorld ∅ None,
     [EvDecodeBearerToken (VStr "Bearer t");
      EvNext VUndefined VUndefined composed VUndefined]) ∧
    getProp composed "jwt" = VObj alice ∧
    getProp composed "authorization" = VStr "Bearer t".
Proof. eexists. split_and!; vm_compute; reflexivity. Qed.

(** C6. When the connection context carries claims, [wrapSubscription]
    calls the next step and nothing else (the decoder is not invoked), its
    result is the result of the next step (the wrapper throws no error of
    its own), and the context handed on carries the same claims; this holds
    for every decoder configuration and all connection parameters. *)
Theorem wrapSubscription_reuses_claims
    (code : string) (resolverArgs : WrapResolverArguments) (next : resolver)
    (root args context info : value) (w : world) :
  toBoolean (getProp context "jwt") = true →
  ∃ composed : value,
    wrapSubscription code resolverArgs next root args context info w =
    (next root args composed info, w, [EvNext root args composed info]) ∧
    getProp composed "jwt" = getProp context "jwt".
Proof.
  intros Hjwt. unfold wrapSubscription. eff_unfold.
  destruct (toBoolean (get (features resolverArgs) "subscriptions")); simpl.
  - rewrite Hjwt. eexists. split; [reflexivity |].
    simpl. unfold get at 1.
    erewrite lookup_union_Some_l; [reflexivity |].
    apply lookup_insert_eq.
  - eexists. split; reflexivity.
Qed.

Lemma wrapSubscription_reuses_claims_witness :
  ∃ composed : value,
    wrapSubscription "FORBIDDEN" (subscription_args rejecting) echo
      VUndefined VUndefined (VObj {["jwt" := VObj alice]}) VUndefined
      (mkWorld ∅ None) =
    (echo VUndefined VUndefined composed VUndefined, mkWorld ∅ None,
     [EvNext VUndefined VUndefined composed VUndefined]) ∧
    getProp composed "jwt" = getProp (VObj {["jwt" := VObj alice]}) "jwt".
Proof.
  exact (wrapSubscription_reuses_claims "FORBIDDEN"
           (subscription_args rejecting) echo
           VUndefined VUndefined (VObj {["jwt" := VObj alice]}) VUndefined
           (mkWorld ∅ None) eq_refl).
Defined.

(** C9, as the code has it. When the subscriptions feature is disabled,
    [wrapSubscription] calls the next step with the very context it was
    given (connection parameters are not merged into it) and records no
    other event: the decoder is not invoked and the wrapper throws no error
    of its own. *)
Theorem wrapSubscription_disabled_passes_context
    (code : string) (resolverArgs : WrapResolverArguments) (next : resolver)
    (root args context info : value) (w : world) :
  toBoolean (get (features resolverArgs) "subscriptions") = false →
  wrapSubscription code resolverArgs next root args context info w =
  (next root args context info, w, [EvNext root args context info]).
Proof.
  intros Hsub. unfold wrapSubscription. eff_unfold.
  rewrite Hsub. reflexivity.
Qed.

Lemma wrapSubscription_disabled_passes_context_witness :
  wrapSubscription "FORBIDDEN" plain_args echo
    VUndefined VUndefined connection_with_token VUndefined (mkWorld ∅ None) =
  (echo VUndefined VUndefined connection_with_token VUndefined,
   mkWorld ∅ None,
   [EvNext VUndefined VUndefined connection_with_token VUndefined]).
Proof.
  exact (wrapSubscription_disabled_passes_context "FORBIDDEN" plain_args echo
           VUndefined VUndefined connection_with_token VUndefined
           (mkWorld ∅ None) eq_refl).
Defined.

(** C9 as stated fails: with the feature disabled, a connection parameter
    ([authorization]) is not a property of the context handed to the next
    step, although the connection parameters hold it. *)
Lemma wrapSubscription_disabled_does_not_merge :
  toBoolean (get (features plain_args) "subscriptions") = false ∧
  getProp (contextParams connection_with_token) "authorization"
    = VStr "Bearer t" ∧
  ∃ passed : value,
    wrapSubscription "FORBIDDEN" plain_args echo
      VUndefined VUndefined connection_with_token VUndefined
      (mkWorld ∅ None) =
    (Return passed, mkWorld ∅ None,
     [EvNext VUndefined VUndefined passed VUndefined]) ∧
    getProp passed "authorization" = VUndefined.
Proof.
  split; [reflexivity |]. split; [reflexivity |].
  exists connection_with_token. split; reflexivity.
Qed.

(** ** Properties of the request wrapper *)

(** The authorization resolver always returns; it leaves the version cache
    and every context property but [jwt] alone, and calls nothing but the
    decoder. *)
Lemma getAuthorizationContext_wp authorization fields (w : world)
    (Q : outcome (AuthorizationContext value) → world → list event
         → Prop) :
  (∀ ac ctx' t,
     (∀ k, k ≠ "jwt" → ctx' !! k = context w !! k) →
     Forall (λ e, is_decode e = true) t →
     Q (Return ac) (mkWorld ctx' (neo4jDatabaseInfo w)) t) →
  wp (getAuthorizationContext authorization fields) w Q.
Proof.
  intros HQ. unfold wp, getAuthorizationContext. eff_unfold.
  destruct (toBoolean (get (context w) "jwt")); simpl;
    [| destruct authorization as [a |]; simpl;
       [destruct (decode a (context w)); simpl |] ].
  all: try (destruct w; apply HQ; [done | by repeat constructor]).
  apply HQ; [| by repeat constructor].
  intros k Hk. by rewrite lookup_insert_ne.
Qed.

#[global] Opaque wp.

Ltac wp_step :=
  lazymatch goal with
  | |- wp (bind _ _) _ _ => apply wp_bind
  | |- wp (ret _) _ _ => apply wp_ret
  | |- wp (throw _) _ _ => apply wp_throw
  | |- wp read _ _ => apply wp_read
  | |- wp (modify _) _ _ => apply wp_modify
  | |- wp (set_context _ _) _ _ => apply wp_modify
  | |- wp (set_neo4jDatabaseInfo _) _ _ => apply wp_modify
  | |- wp (call _ _) _ _ => apply wp_call
  end; cbn beta iota.

(** Runs a wrapper to the end of each of its paths. *)
Ltac wp_go :=
  repeat first
    [ wp_step
    | lazymatch goal with
      | |- wp (if ?c then _ else _) _ _ => destruct c eqn:?
      | |- wp (match ?x with Some _ => _ | None => _ end) _ _ =>
          destruct x eqn:?
      | |- wp (getAuthorizationContext _ _) _ _ =>
          apply getAuthorizationContext_wp; intros
      | |- match ?r with Return _ => _ | Throw _ => _ end =>
          destruct r eqn:?
      end ];
  cbn [context neo4jDatabaseInfo app] in *.

Lemma decode_events_only (t : list event) (e : event) :
  Forall (λ e, is_decode e = true) t → e ∈ t → is_decode e = true.
Proof. rewrite Forall_forall. auto. Qed.

(** Membership of an event in a trace made of decoder events and a few
    explicit events: the decoder part is discarded when the sought event is
    not a decoder call. *)
Ltac trace_cases H :=
  repeat (rewrite ?elem_of_app, ?elem_of_cons, ?elem_of_nil in H);
  repeat match type of H with
         | _ ∨ _ => destruct H as [H | H]
         end;
  try (eapply decode_events_only in H; [| eassumption]);
  try done; simplify_eq.

(** C7. A request without an execution handle through a wrapper without a
    default driver throws the configuration error at once: the context and
    the version cache are untouched and no event is recorded (no decoder
    call, no executor, no next step).  A request whose context carries a
    handle keeps that handle in its context, and the executor that is built
    wraps that same handle. *)
Theorem wrapResolver_execution_handle
    (getNeo4jDatabaseInfo :
       Executor value → outcome (Neo4jDatabaseInfo value))
    (resolverArgs : WrapResolverArguments) (next : resolver)
    (root args info : value) (w : world) :
  (toBoolean (get (context w) "executionContext") = false →
   driver resolverArgs = None →
   wrapResolver getNeo4jDatabaseInfo resolverArgs next root args info w =
   (Throw (Error NO_DRIVER_MESSAGE), w, []))
  ∧
  (toBoolean (get (context w) "executionContext") = true →
   ∀ r w' t,
     wrapResolver getNeo4jDatabaseInfo resolverArgs next root args info w =
     (r, w', t) →
     get (context w') "executionContext" = get (context w) "executionContext"
     ∧ (∃ e, EvNewExecutor e ∈ t)
     ∧ (∀ e, EvNewExecutor e ∈ t →
          executionContext e = get (context w) "executionContext")).
Proof.
  split.
  - intros Hh Hd. unfold wrapResolver. eff_unfold.
    rewrite Hh, Hd. reflexivity.
  - intros Hh. refine (wp_run _ _ _ _). unfold wrapResolver.
    do 2 wp_step. rewrite Hh. cbn [negb]. wp_go.
    all: match goal with
         | H : ∀ k, k ≠ "jwt" → _ |- _ =>
             pose proof (H "executionContext" ltac:(done)) as Hec
         end.
    all: unfold get in *; rewrite ?lookup_insert_ne by done; rewrite Hec.
    all: split; [reflexivity |]; split;
      [eexists; rewrite !elem_of_app, !elem_of_cons; eauto |].
    all: intros ex Hex; trace_cases Hex; simpl.
    all: unfold get; rewrite ?lookup_insert_ne by done; rewrite ?Hec; done.
Qed.

Lemma wrapResolver_execution_handle_witness :
  wrapResolver db_5 no_driver_args echo VUndefined VUndefined VUndefined
    (mkWorld ∅ None) =
  (Throw (Error NO_DRIVER_MESSAGE), mkWorld ∅ None, [])
  ∧
  ∃ r w' t,
    wrapResolver db_5 no_driver_args echo VUndefined VUndefined VUndefined
      (mkWorld with_session None) = (r, w', t) ∧
    get (context w') "executionContext" = VHost 9 ∧
    (∃ e, EvNewExecutor e ∈ t) ∧
    (∀ e, EvNewExecutor e ∈ t → executionContext e = VHost 9).
Proof.
  split.
  - exact (proj1 (wrapResolver_execution_handle db_5 no_driver_args echo
                    VUndefined VUndefined VUndefined (mkWorld ∅ None))
                 eq_refl eq_refl).
  - destruct (wrapResolver db_5 no_driver_args echo
                VUndefined VUndefined VUndefined (mkWorld with_session None))
      as [[r w'] t] eqn:Hrun.
    exists r, w', t. split; [reflexivity |].
    exact (proj2 (wrapResolver_execution_handle db_5 no_driver_args echo
                    VUndefined VUndefined VUndefined
                    (mkWorld with_session None))
                 eq_refl r w' t Hrun).
Defined.

(** When a handle is available and the version query answers, the wrapper
    reaches the next step and returns what it returns. *)
Lemma wrapResolver_reaches_next
    (getNeo4jDatabaseInfo :
       Executor value → outcome (Neo4jDatabaseInfo value))
    (resolverArgs : WrapResolverArguments) (next : resolver)
    (root args info : value) (w : world) :
  toBoolean (get (context w) "executionContext") = true
  ∨ is_Some (driver resolverArgs) →
  (∀ e, ∃ d, getNeo4jDatabaseInfo e = Return d) →
  ∀ r w' t,
    wrapResolver getNeo4jDatabaseInfo resolverArgs next root args info w =
    (r, w', t) →
    ∃ composed,
      EvNext root args composed info ∈ t ∧
      r = next root args composed info.
Proof.
  intros Hhandle Hdb. refine (wp_run _ _ _ _). unfold wrapResolver. wp_go.
  all: try (destruct Hhandle as [Hh | [? ?]];
            [by rewrite Hh in * | congruence]).
  all: try match goal with
           | Hq : _ ?e = Throw _ |- _ =>
               destruct (Hdb e); congruence
           end.
  all: eexists; split; [| reflexivity].
  all: rewrite !elem_of_app, !elem_of_cons; eauto 10.
Qed.

(** C5. Whenever the next step is invoked, every property of the caller's
    context object, as the wrapper left it, is a property of the composed
    context with the same value: no internally derived value takes its
    place. *)
Theorem wrapResolver_caller_fields_win
    (getNeo4jDatabaseInfo :
       Executor value → outcome (Neo4jDatabaseInfo value))
    (resolverArgs : WrapResolverArguments) (next : resolver)
    (root args info : value) (w : world) :
  ∀ r w' t,
    wrapResolver getNeo4jDatabaseInfo resolverArgs next root args info w =
    (r, w', t) →
    ∀ root' args' composed info',
      EvNext root' args' composed info' ∈ t →
      ∀ k v, context w' !! k = Some v →
        ∃ o, composed = VObj o ∧ o !! k = Some v.
Proof.
  refine (wp_run _ _ _ _). unfold wrapResolver. wp_go.
  all: intros root' args' composed info' Hnext; trace_cases Hnext.
  all: intros k v Hk; eexists; split; [reflexivity |].
  all: unfold internalContext; by do 2 (apply lookup_union_Some_l).
Qed.

Lemma wrapResolver_caller_fields_win_witness :
  let context' := <["jwt" := VUndefined]> overriding in
  let executor := mkExecutor (VHost 9) VUndefined VUndefined in
  let verdict :=
    mkAuthorizationContext true VUndefined (mkNamedParam "jwt" VUndefined)
      (mkNamedParam "isAuthenticated" (VBool true)) None in
  let composed :=
    VObj (internalContext plain_args (VBool false) executor (Some info_5)
            verdict context' ∪ context') in
  wrapResolver db_5 plain_args echo VUndefined VUndefined VUndefined
    (mkWorld overriding None) =
  (Return composed, mkWorld context' (Some info_5),
   [EvNewExecutor executor; EvGetNeo4jDatabaseInfo executor;
    EvNext VUndefined VUndefined composed VUndefined]) ∧
  ∃ o, composed = VObj o ∧
       o !! "executor" = Some (VStr "mine") ∧ o !! "features" = Some VNull.
Proof.
  intros context' executor verdict composed.
  assert (wrapResolver db_5 plain_args echo VUndefined VUndefined VUndefined
            (mkWorld overriding None) =
          (Return composed, mkWorld context' (Some info_5),
           [EvNewExecutor executor; EvGetNeo4jDatabaseInfo executor;
            EvNext VUndefined VUndefined composed VUndefined])) as Hrun
    by (vm_compute; reflexivity).
  assert (EvNext VUndefined VUndefined composed VUndefined ∈
          [EvNewExecutor executor; EvGetNeo4jDatabaseInfo executor;
           EvNext VUndefined VUndefined composed VUndefined]) as Hnext
    by (do 2 apply list_elem_of_further; apply list_elem_of_here).
  pose proof (wrapResolver_caller_fields_win _ _ _ _ _ _ _ _ _ _ Hrun
                _ _ _ _ Hnext) as Hwin.
  destruct (Hwin "executor" (VStr "mine")) as (o & Ho & Hexecutor);
    [vm_compute; reflexivity |].
  destruct (Hwin "features" VNull) as (o' & Ho' & Hfeatures);
    [vm_compute; reflexivity |].
  split; [exact Hrun |]. exists o. split; [exact Ho |].
  split; [exact Hexecutor |]. congruence.
Defined.

(** ** Properties of the database version cache *)

(** One request through a wrapper without override, on a cache that holds a
    version: the cache is kept and the database is not queried. *)
Lemma wrapResolver_cached
    (getNeo4jDatabaseInfo :
       Executor value → outcome (Neo4jDatabaseInfo value))
    (resolverArgs : WrapResolverArguments) (next : resolver)
    (root args info : value) (context : obj) (d : Neo4jDatabaseInfo value) :
  toBoolean (version d) = true →
  dbInfo resolverArgs = None →
  ∀ r w' t,
    wrapResolver getNeo4jDatabaseInfo resolverArgs next root args info
      (mkWorld context (Some d)) = (r, w', t) →
    neo4jDatabaseInfo w' = Some d ∧
    Forall (λ e, is_version_query e = false) t.
Proof.
  intros Hv Hd. refine (wp_run _ _ _ _). unfold wrapResolver.
  rewrite Hd. wp_go.
  all: try (simpl in *; rewrite Hv in *; discriminate).
  all: split; [reflexivity |].
  all: rewrite ?Forall_app; repeat split; repeat constructor.
  all: eapply Forall_impl; [eassumption |]; by intros [].
Qed.

(** One request through a wrapper whose override holds a version. *)
Lemma wrapResolver_override
    (getNeo4jDatabaseInfo :
       Executor value → outcome (Neo4jDatabaseInfo value))
    (resolverArgs : WrapResolverArguments) (next : resolver)
    (root args info : value) (w : world) (d : Neo4jDatabaseInfo value) :
  dbInfo resolverArgs = Some d →
  toBoolean (version d) = true →
  ∀ r w' t,
    wrapResolver getNeo4jDatabaseInfo resolverArgs next root args info w =
    (r, w', t) →
    Forall (λ e, is_version_query e = false) t ∧
    (toBoolean (get (context w) "executionContext") = true
     ∨ is_Some (driver resolverArgs) →
     neo4jDatabaseInfo w' = Some d) ∧
    (∀ root' args' composed info',
       EvNext root' args' composed info' ∈ t →
       context w' !! "neo4jDatabaseInfo" = None →
       getProp composed "neo4jDatabaseInfo" = VDatabaseInfo d).
Proof.
  intros Hd Hv. refine (wp_run _ _ _ _). unfold wrapResolver.
  rewrite Hd. wp_go.
  all: try (simpl in *; rewrite Hv in *; discriminate).
  all: split_and!.
  all: try (rewrite ?Forall_app; repeat split; repeat constructor;
            eapply Forall_impl; [eassumption |]; by intros []).
  all: try done.
  all: try (intros [Hh | [? ?]];
            [by rewrite Hh in * | congruence]).
  all: intros root' args' composed info' Hnext; trace_cases Hnext.
  all: intros Hnone; simpl; unfold get, internalContext.
  all: erewrite lookup_union_Some_l; [reflexivity |].
  all: rewrite lookup_union_r by done.
  all: by repeat (rewrite lookup_insert_ne by done); rewrite lookup_insert_eq.
Qed.

(** C8, as the code has it. Once the module-level cache holds a value with
    a version, requests through wrappers without override leave it as it is
    and never query the database; and every request through a wrapper whose
    [dbInfo] override holds a version runs without a version query, leaves
    the override in the cache once a handle is available, and hands the
    override on in the composed context (unless the caller's context has a
    [neo4jDatabaseInfo] property of its own). *)
Theorem version_cache_reuse
    (getNeo4jDatabaseInfo :
       Executor value → outcome (Neo4jDatabaseInfo value)) :
  (∀ (rs : list request) (d : Neo4jDatabaseInfo value),
     toBoolean (version d) = true →
     Forall (λ r, dbInfo (req_wrapper r) = None) rs →
     ∃ t, serve getNeo4jDatabaseInfo rs (Some d) = (Some d, t) ∧
          Forall (λ e, is_version_query e = false) t)
  ∧
  (∀ (resolverArgs : WrapResolverArguments) (next : resolver)
     (root args info : value) (w : world) (d : Neo4jDatabaseInfo value),
     dbInfo resolverArgs = Some d →
     toBoolean (version d) = true →
     ∀ r w' t,
       wrapResolver getNeo4jDatabaseInfo resolverArgs next root args info w =
       (r, w', t) →
       Forall (λ e, is_version_query e = false) t ∧
       (toBoolean (get (context w) "executionContext") = true
        ∨ is_Some (driver resolverArgs) →
        neo4jDatabaseInfo w' = Some d) ∧
       (∀ root' args' composed info',
          EvNext root' args' composed info' ∈ t →
          context w' !! "neo4jDatabaseInfo" = None →
          getProp composed "neo4jDatabaseInfo" = VDatabaseInfo d)).
Proof.
  split.
  - intros rs d Hv Hrs. induction Hrs as [| rq rs Hrq Hrs IH]; simpl.
    + by exists [].
    + destruct (wrapResolver _ _ _ _ _ _ _) as [[r w'] t] eqn:Hrun.
      apply (wrapResolver_cached _ _ _ _ _ _ _ d Hv Hrq) in Hrun
        as [Hcache Ht].
      rewrite Hcache. destruct IH as (t' & -> & Ht').
      exists (t ++ t'). split; [done |]. by apply Forall_app.
  - intros resolverArgs next root args info w d.
    apply wrapResolver_override.
Qed.

(** Two requests on a cache that holds [info_4]; then one request through a
    wrapper that overrides the database information with [info_5]. *)
Lemma version_cache_reuse_witness :
  (∃ t, serve db_5 [plain_request; plain_request] (Some info_4) =
        (Some info_4, t) ∧
        Forall (λ e, is_version_query e = false) t)
  ∧
  ∃ r w' t,
    wrapResolver db_5 override_args echo VUndefined VUndefined VUndefined
      (mkWorld with_session (Some info_4)) = (r, w', t) ∧
    Forall (λ e, is_version_query e = false) t ∧
    neo4jDatabaseInfo w' = Some info_5 ∧
    (∀ root' args' composed info',
       EvNext root' args' composed info' ∈ t →
       context w' !! "neo4jDatabaseInfo" = None →
       getProp composed "neo4jDatabaseInfo" = VDatabaseInfo info_5).
Proof.
  split.
  - apply (proj1 (version_cache_reuse db_5)
             [plain_request; plain_request] info_4).
    + reflexivity.
    + repeat constructor.
  - destruct (wrapResolver db_5 override_args echo
                VUndefined VUndefined VUndefined
                (mkWorld with_session (Some info_4)))
      as [[r w'] t] eqn:Hrun.
    exists r, w', t. split; [reflexivity |].
    destruct (proj2 (version_cache_reuse db_5) override_args echo
                VUndefined VUndefined VUndefined
                (mkWorld with_session (Some info_4)) info_5
                eq_refl eq_refl r w' t Hrun)
      as (Hquery & Hcache & Hnext).
    split; [exact Hquery |]. split; [| exact Hnext].
    apply Hcache. left. reflexivity.
Defined.

(** The same two requests, written out: each builds its executor and calls
    the next step; none queries the database. *)
Example serve_cached_run :
  let executor := mkExecutor (VHost 9) VUndefined VUndefined in
  ∃ c1 c2,
    serve db_5 [plain_request; plain_request] (Some info_4) =
    (Some info_4,
     [EvNewExecutor executor; EvNext VUndefined VUndefined c1 VUndefined;
      EvNewExecutor executor; EvNext VUndefined VUndefined c2 VUndefined]).
Proof. do 2 eexists. vm_compute. reflexivity. Qed.

(** C8 as stated fails: an override without a version does not stop the
    version query, and the request leaves the answer of the database in the
    cache, not the override. *)
Lemma override_without_version_is_queried :
  let executor := mkExecutor (VHost 9) VUndefined VUndefined in
  dbInfo no_version_args = Some info_no_version ∧
  ∃ r context' tail,
    wrapResolver db_5 no_version_args echo VUndefined VUndefined VUndefined
      (mkWorld with_session None) =
    (r, mkWorld context' (Some info_5),
     EvNewExecutor executor :: EvGetNeo4jDatabaseInfo executor :: tail) ∧
    info_5 ≠ info_no_version.
Proof.
  split; [reflexivity |]. do 3 eexists. split.
  - vm_compute. reflexivity.
  - discriminate.
Qed.

End WrapperSpec.

(** ** Properties of the schema-model registry *)

Module OperationSpec.
Import SchemaModel.

(** The first element of a list whose key already occurred before it. *)
Lemma first_duplicate {A K} `{EqDecision K} (f : A → K) (l : list A) :
  ¬ NoDup (f <$> l) →
  ∃ pre a post,
    l = pre ++ a :: post ∧ NoDup (f <$> pre) ∧ f a ∈ f <$> pre.
Proof.
  induction l as [| x l IH] using rev_ind; intros Hdup.
  - destruct Hdup. constructor.
  - destruct (decide (NoDup (f <$> l))) as [Hl | Hl].
    + exists l, x, []. split_and!; [done | done |].
      destruct (decide (f x ∈ f <$> l)) as [| Hx]; [done |].
      destruct Hdup. rewrite fmap_app. apply NoDup_app. split_and!; [done | | ].
      * intros k Hk Hk'. apply list_elem_of_singleton in Hk' as ->. done.
      * apply NoDup_singleton.
    + destruct (IH Hl) as (pre & a & post & -> & Hpre & Ha).
      exists pre, a, (post ++ [x]). by rewrite <- app_assoc.
Qed.

Section Operation.
Context {Attribute Annotation AnnotationKey : Type}.
Context `{Countable AnnotationKey}.
Variable attribute_name : Attribute → string.
Variable annotationToKey : Annotation → AnnotationKey.
Variable key_text : AnnotationKey → string.

Abbreviation Op := (Operation Attribute Annotation AnnotationKey).
Abbreviation addAttribute' :=
  (addAttribute (Annotation := Annotation) (AnnotationKey := AnnotationKey)
                attribute_name).
Abbreviation addAnnotation' :=
  (addAnnotation (Attribute := Attribute) annotationToKey key_text).
Abbreviation attribute_entry := (attribute_entry attribute_name).
Abbreviation annotation_entry := (annotation_entry annotationToKey).

Lemma attribute_keys (l : list Attribute) :
  (attribute_entry <$> l).*1 = attribute_name <$> l.
Proof. by rewrite <- list_fmap_compose. Qed.

Lemma annotation_keys (l : list Annotation) :
  (annotation_entry <$> l).*1 = annotationToKey <$> l.
Proof. by rewrite <- list_fmap_compose. Qed.

(** Moving the insertion of a fresh key across a union. *)
Lemma insert_fresh_union {K V} `{Countable K}
    (l : list (K * V)) (k : K) (v : V) (m : gmap K V) :
  k ∉ l.*1 →
  list_to_map l ∪ <[k := v]> m = <[k := v]> (list_to_map l) ∪ m.
Proof.
  intros Hk. rewrite <- insert_union_l. symmetry.
  apply insert_union_r. by apply not_elem_of_list_to_map_1.
Qed.

Lemma add_attributes_run (l : list Attribute) (this : Op) :
  NoDup (attribute_name <$> l) →
  (∀ a, a ∈ l → attributes this !! attribute_name a = None) →
  for_of l addAttribute' this =
  (Return tt,
   mkOperation (name this)
     (list_to_map (attribute_entry <$> l) ∪ attributes this)
     (annotations this),
   []).
Proof.
  revert this. induction l as [| a l IH]; intros this Hnd Hfresh.
  - simpl. rewrite (left_id_L ∅ (∪)). by destruct this.
  - rewrite fmap_cons in Hnd. apply NoDup_cons in Hnd as [Ha Hnd].
    simpl. unfold bind at 1. unfold addAttribute at 1.
    unfold bind, read, modify, throw.
    rewrite (Hfresh a) by left. rewrite bool_decide_false by (by intros []).
    rewrite IH; [| done |].
    + simpl. do 3 f_equal. apply insert_fresh_union.
      by rewrite attribute_keys.
    + intros b Hb. simpl. rewrite lookup_insert_ne.
      * apply Hfresh. by right.
      * intros Heq. apply Ha. rewrite Heq. by apply list_elem_of_fmap_2.
Qed.

Lemma add_attributes_duplicate
    (pre : list Attribute) (a : Attribute) (post : list Attribute)
    (this : Op) :
  NoDup (attribute_name <$> pre) →
  (∀ b, b ∈ pre → attributes this !! attribute_name b = None) →
  is_Some ((list_to_map (attribute_entry <$> pre) ∪ attributes this)
             !! attribute_name a) →
  for_of (pre ++ a :: post) addAttribute' this =
  (Throw (Neo4jGraphQLSchemaValidationError
            ("Attribute " +:+ attribute_name a
             +:+ " already exists in " +:+ name this)),
   mkOperation (name this)
     (list_to_map (attribute_entry <$> pre) ∪ attributes this)
     (annotations this),
   []).
Proof.
  revert this. induction pre as [| b pre IH]; intros this Hnd Hfresh Ha.
  - simpl in *. rewrite (left_id_L ∅ (∪)) in *.
    unfold bind at 1. unfold addAttribute at 1.
    unfold bind, read, modify, throw.
    rewrite bool_decide_true by done. by destruct this.
  - rewrite fmap_cons in Hnd. apply NoDup_cons in Hnd as [Hb Hnd].
    simpl in *. unfold bind at 1. unfold addAttribute at 1.
    unfold bind, read, modify, throw.
    rewrite (Hfresh b) by left. rewrite bool_decide_false by (by intros []).
    rewrite <- insert_fresh_union in * by (by rewrite attribute_keys).
    rewrite IH; [done | done | | done].
    intros c Hc. simpl. rewrite lookup_insert_ne.
    + apply Hfresh. by right.
    + intros Heq. apply Hb. rewrite Heq. by apply list_elem_of_fmap_2.
Qed.

Lemma add_annotations_run (l : list Annotation) (this : Op) :
  NoDup (annotationToKey <$> l) →
  (∀ a, a ∈ l → annotations this !! annotationToKey a = None) →
  for_of l addAnnotation' this =
  (Return tt,
   mkOperation (name this) (attributes this)
     (list_to_map (annotation_entry <$> l) ∪ annotations this),
   []).
Proof.
  revert this. induction l as [| a l IH]; intros this Hnd Hfresh.
  - simpl. rewrite (left_id_L ∅ (∪)). by destruct this.
  - rewrite fmap_cons in Hnd. apply NoDup_cons in Hnd as [Ha Hnd].
    simpl. unfold bind at 1. unfold addAnnotation at 1.
    unfold bind, read, modify, throw.
    rewrite (Hfresh a) by left. rewrite bool_decide_false by (by intros []).
    rewrite IH; [| done |].
    + simpl. do 3 f_equal. apply insert_fresh_union.
      by rewrite annotation_keys.
    + intros b Hb. simpl. rewrite lookup_insert_ne.
      * apply Hfresh. by right.
      * intros Heq. apply Ha. rewrite Heq. by apply list_elem_of_fmap_2.
Qed.

Lemma add_annotations_duplicate
    (pre : list Annotation) (a : Annotation) (post : list Annotation)
    (this : Op) :
  NoDup (annotationToKey <$> pre) →
  (∀ b, b ∈ pre → annotations this !! annotationToKey b = None) →
  is_Some ((list_to_map (annotation_entry <$> pre) ∪ annotations this)
             !! annotationToKey a) →
  for_of (pre ++ a :: post) addAnnotation' this =
  (Throw (Neo4jGraphQLSchemaValidationError
            ("Annotation " +:+ key_text (annotationToKey a)
             +:+ " already exists in " +:+ name this)),
   mkOperation (name this) (attributes this)
     (list_to_map (annotation_entry <$> pre) ∪ annotations this),
   []).
Proof.
  revert this. induction pre as [| b pre IH]; intros this Hnd Hfresh Ha.
  - simpl in *. rewrite (left_id_L ∅ (∪)) in *.
    unfold bind at 1. unfold addAnnotation at 1.
    unfold bind, read, modify, throw.
    rewrite bool_decide_true by done. by destruct this.
  - rewrite fmap_cons in Hnd. apply NoDup_cons in Hnd as [Hb Hnd].
    simpl in *. unfold bind at 1. unfold addAnnotation at 1.
    unfold bind, read, modify, throw.
    rewrite (Hfresh b) by left. rewrite bool_decide_false by (by intros []).
    rewrite <- insert_fresh_union in * by (by rewrite annotation_keys).
    rewrite IH; [done | done | | done].
    intros c Hc. simpl. rewrite lookup_insert_ne.
    + apply Hfresh. by right.
    + intros Heq. apply Hb. rewrite Heq. by apply list_elem_of_fmap_2.
Qed.

(** A key of the list is a key of the map built from it. *)
Lemma list_to_map_is_Some {K V} `{Countable K}
    (l : list (K * V)) (k : K) :
  k ∈ l.*1 → is_Some ((list_to_map l : gmap K V) !! k).
Proof.
  intros Hk. apply not_eq_None_Some. intros Hnone.
  by apply not_elem_of_list_to_map in Hnone.
Qed.

(** C10. Constructing an [Operation] from an attribute list with a
    repeated name throws the schema validation error for the first
    attribute whose name occurred before it: the attributes before it have
    been added, the earlier entry of that name is still in place and no
    object is returned.  With distinct attribute names, an annotation list
    with a repeated kind throws likewise at the first annotation whose
    kind occurred before it.  With distinct names and distinct kinds the
    construction returns an operation on which [findAttribute] finds every
    attribute of the list under its name. *)
Theorem Operation_construction
    (opname : string) (attrs : list Attribute) (annots : list Annotation) :
  (¬ NoDup (attribute_name <$> attrs) →
   ∃ pre a post,
     attrs = pre ++ a :: post ∧
     NoDup (attribute_name <$> pre) ∧
     attribute_name a ∈ attribute_name <$> pre ∧
     constructor attribute_name annotationToKey key_text
                 opname attrs annots =
     (Throw (Neo4jGraphQLSchemaValidationError
               ("Attribute " +:+ attribute_name a
                +:+ " already exists in " +:+ opname)),
      mkOperation opname (list_to_map (attribute_entry <$> pre)) ∅,
      []) ∧
     new_Operation attribute_name annotationToKey key_text
                   opname attrs annots =
     Throw (Neo4jGraphQLSchemaValidationError
              ("Attribute " +:+ attribute_name a
               +:+ " already exists in " +:+ opname)))
  ∧
  (NoDup (attribute_name <$> attrs) →
   ¬ NoDup (annotationToKey <$> annots) →
   ∃ pre a post,
     annots = pre ++ a :: post ∧
     NoDup (annotationToKey <$> pre) ∧
     annotationToKey a ∈ annotationToKey <$> pre ∧
     constructor attribute_name annotationToKey key_text
                 opname attrs annots =
     (Throw (Neo4jGraphQLSchemaValidationError
               ("Annotation " +:+ key_text (annotationToKey a)
                +:+ " already exists in " +:+ opname)),
      mkOperation opname (list_to_map (attribute_entry <$> attrs))
                  (list_to_map (annotation_entry <$> pre)),
      []) ∧
     new_Operation attribute_name annotationToKey key_text
                   opname attrs annots =
     Throw (Neo4jGraphQLSchemaValidationError
              ("Annotation " +:+ key_text (annotationToKey a)
               +:+ " already exists in " +:+ opname)))
  ∧
  (NoDup (attribute_name <$> attrs) →
   NoDup (annotationToKey <$> annots) →
   ∃ this : Op,
     new_Operation attribute_name annotationToKey key_text
                   opname attrs annots = Return this ∧
     name this = opname ∧
     ∀ a, a ∈ attrs → findAttribute this (attribute_name a) = Some a).
Proof.
  split_and!.
  - intros Hdup.
    destruct (first_duplicate attribute_name attrs Hdup)
      as (pre & a & post & -> & Hpre & Ha).
    exists pre, a, post. split_and!; [done | done | done | |].
    all: unfold new_Operation, constructor; unfold bind at 1.
    all: rewrite add_attributes_duplicate; simpl;
      rewrite ?(right_id_L ∅ (∪)); try done.
    all: apply list_to_map_is_Some; by rewrite attribute_keys.
  - intros Hattrs Hdup.
    destruct (first_duplicate annotationToKey annots Hdup)
      as (pre & a & post & -> & Hpre & Ha).
    exists pre, a, post. split_and!; [done | done | done | |].
    all: unfold new_Operation, constructor; unfold bind at 1.
    all: rewrite add_attributes_run by done; simpl.
    all: rewrite add_annotations_duplicate; simpl;
      rewrite ?(right_id_L ∅ (∪)); try done.
    all: apply list_to_map_is_Some; by rewrite annotation_keys.
  - intros Hattrs Hannots. eexists. split_and!.
    + unfold new_Operation, constructor; unfold bind at 1.
      rewrite add_attributes_run by done; simpl.
      rewrite add_annotations_run by done; simpl. reflexivity.
    + reflexivity.
    + intros a Ha. unfold findAttribute. simpl.
      rewrite (right_id_L ∅ (∪)). apply elem_of_list_to_map_1.
      * by rewrite attribute_keys.
      * by apply (list_elem_of_fmap_2 attribute_entry).
Qed.
End Operation.

Import Sample.

(** The three cases on concrete lists: a repeated attribute name, a
    repeated annotation kind, and lists without repetition. *)
Lemma Operation_construction_witness :
  (∃ pre a post,
     [attr_id; attr_title; attr_id'; attr_title] = pre ++ a :: post ∧
     NoDup (fst <$> pre) ∧ a.1 ∈ fst <$> pre ∧
     constructor fst fst id "Query"
       [attr_id; attr_title; attr_id'; attr_title] [annot_cypher] =
     (Throw (Neo4jGraphQLSchemaValidationError
               ("Attribute " +:+ a.1 +:+ " already exists in " +:+ "Query")),
      mkOperation "Query" (list_to_map (attribute_entry fst <$> pre)) ∅,
      []) ∧
     new_Operation fst fst id "Query"
       [attr_id; attr_title; attr_id'; attr_title] [annot_cypher] =
     Throw (Neo4jGraphQLSchemaValidationError
              ("Attribute " +:+ a.1 +:+ " already exists in " +:+ "Query")))
  ∧
  (∃ pre a post,
     [annot_cypher; annot_cypher'] = pre ++ a :: post ∧
     NoDup (fst <$> pre) ∧ a.1 ∈ fst <$> pre ∧
     constructor fst fst id "Query"
       [attr_id; attr_title] [annot_cypher; annot_cypher'] =
     (Throw (Neo4jGraphQLSchemaValidationError
               ("Annotation " +:+ id a.1
                +:+ " already exists in " +:+ "Query")),
      mkOperation "Query"
        (list_to_map (attribute_entry fst <$> [attr_id; attr_title]))
        (list_to_map (annotation_entry fst <$> pre)),
      []) ∧
     new_Operation fst fst id "Query"
       [attr_id; attr_title] [annot_cypher; annot_cypher'] =
     Throw (Neo4jGraphQLSchemaValidationError
              ("Annotation " +:+ id a.1
               +:+ " already exists in " +:+ "Query")))
  ∧
  (∃ this : Operation (string * nat) (string * nat) string,
     new_Operation fst fst id "Query"
       [attr_id; attr_title] [annot_cypher] = Return this ∧
     name this = "Query" ∧
     ∀ a, a ∈ [attr_id; attr_title] → findAttribute this a.1 = Some a).
Proof.
  split_and!.
  - apply (proj1 (Operation_construction fst fst id "Query"
                    [attr_id; attr_title; attr_id'; attr_title]
                    [annot_cypher])).
    apply (bool_decide_eq_false_1 (NoDup _)). reflexivity.
  - apply (proj1 (proj2 (Operation_construction fst fst id "Query"
                           [attr_id; attr_title]
                           [annot_cypher; annot_cypher']))).
    + apply (bool_decide_eq_true_1 (NoDup _)). reflexivity.
    + apply (bool_decide_eq_false_1 (NoDup _)). reflexivity.
  - apply (proj2 (proj2 (Operation_construction fst fst id "Query"
                           [attr_id; attr_title] [annot_cypher]))).
    + apply (bool_decide_eq_true_1 (NoDup _)). reflexivity.
    + apply (bool_decide_eq_true_1 (NoDup _)). reflexivity.
Defined.

(** The run on the list with a repeated name, written out: the failure
    names [id], and the entry kept under [id] is the first one. *)
Example Operation_duplicate_attribute_run :
  constructor fst fst id "Query"
    [attr_id; attr_title; attr_id'; attr_title] [annot_cypher] =
  (Throw (Neo4jGraphQLSchemaValidationError
            "Attribute id already exists in Query"),
   mkOperation "Query" (<["id" := attr_id]> {["title" := attr_title]}) ∅,
   []).
Proof. vm_compute. reflexivity. Qed.

End OperationSpec.

(** ** Further properties of the authorization resolver *)

Module AuthorizationFacts.
Import Wrapper Sample Cases WrapperSpec.

(** The four paths of [getAuthorizationContext], with the result of each. *)
Lemma getAuthorizationContext_cases
    (authorization : option Neo4jGraphQLAuthorization)
    (jwtPayloadFieldsMap : option (gmap string string)) (w : world) :
  let claims := get (context w) "jwt" in
  (toBoolean claims = true ∧
   getAuthorizationContext authorization jwtPayloadFieldsMap w =
   (Return (mkAuthorizationContext true claims (mkNamedParam "jwt" claims)
              (mkNamedParam "isAuthenticated" (VBool true)) None),
    w, []))
  ∨
  (toBoolean claims = false ∧ authorization = None ∧
   getAuthorizationContext authorization jwtPayloadFieldsMap w =
   (Return (mkAuthorizationContext true claims (mkNamedParam "jwt" claims)
              (mkNamedParam "isAuthenticated" (VBool true)) None),
    w, []))
  ∨
  (toBoolean claims = false ∧
   ∃ a v, authorization = Some a ∧ decode a (context w) = Return v ∧
     getAuthorizationContext authorization jwtPayloadFieldsMap w =
     (Return (mkAuthorizationContext true v (mkNamedParam "jwt" v)
                (mkNamedParam "isAuthenticated" (VBool true))
                jwtPayloadFieldsMap),
      mkWorld (<["jwt" := v]> (context w)) (neo4jDatabaseInfo w),
      [EvDecode (context w)]))
  ∨
  (toBoolean claims = false ∧
   ∃ a e, authorization = Some a ∧ decode a (context w) = Throw e ∧
     getAuthorizationContext authorization jwtPayloadFieldsMap w =
     (Return (mkAuthorizationContext false VUndefined
                (mkNamedParam "jwt" (VObj ∅))
                (mkNamedParam "isAuthenticated" (VBool false)) None),
      w, [EvDecode (context w)])).
Proof.
  intros claims. subst claims.
  unfold getAuthorizationContext. eff_unfold.
  destruct (toBoolean (get (context w) "jwt")) eqn:Hjwt; simpl.
  - left. done.
  - right. destruct authorization as [a |]; simpl.
    + right. destruct (decode a (context w)) as [v | e] eqn:Hdecode; simpl.
      * left. split; [done |]. exists a, v. split_and!; [done | done |].
        unfold get. by rewrite lookup_insert_eq.
      * right. split; [done |]. by exists a, e.
    + left. done.
Qed.

Lemma getAuthorizationContext_returns
    (authorization : option Neo4jGraphQLAuthorization)
    (jwtPayloadFieldsMap : option (gmap string string)) (w : world) :
  ∃ ac w' t,
    getAuthorizationContext authorization jwtPayloadFieldsMap w =
    (Return ac, w', t).
Proof.
  destruct (getAuthorizationContext_cases authorization
              jwtPayloadFieldsMap w)
    as [[_ Hrun] | [(_ & _ & Hrun) | [(_ & a & v & _ & _ & Hrun)
                                     | (_ & a & e & _ & _ & Hrun)]]];
    rewrite Hrun; by do 3 eexists.
Qed.

(** The decoder accepts: the verdict is authenticated and carries the
    decoded claims together with the claim-to-field mapping, the claims are
    written to the caller's context and the decoder has been called once,
    on the context as it was. *)
Theorem getAuthorizationContext_decode_success
    (w : world) (authorization : Neo4jGraphQLAuthorization)
    (jwtPayloadFieldsMap : option (gmap string string)) (v : value) :
  toBoolean (get (context w) "jwt") = false →
  decode authorization (context w) = Return v →
  getAuthorizationContext (Some authorization) jwtPayloadFieldsMap w =
  (Return (mkAuthorizationContext true v (mkNamedParam "jwt" v)
             (mkNamedParam "isAuthenticated" (VBool true))
             jwtPayloadFieldsMap),
   mkWorld (<["jwt" := v]> (context w)) (neo4jDatabaseInfo w),
   [EvDecode (context w)]).
Proof.
  intros Hjwt Hdecode.
  destruct (getAuthorizationContext_cases (Some authorization)
              jwtPayloadFieldsMap w)
    as [[? _] | [(_ & ? & _) | [(_ & a & v' & Ha & Hd & Hrun)
                               | (_ & a & e & Ha & Hd & _)]]];
    simplify_eq; congruence.
Qed.

Lemma getAuthorizationContext_decode_success_witness :
  getAuthorizationContext (Some accepting) (Some claim_fields)
    (mkWorld with_session (Some info_4)) =
  (Return (mkAuthorizationContext true (VObj alice)
             (mkNamedParam "jwt" (VObj alice))
             (mkNamedParam "isAuthenticated" (VBool true))
             (Some claim_fields)),
   mkWorld (<["jwt" := VObj alice]> with_session) (Some info_4),
   [EvDecode with_session]).
Proof.
  exact (getAuthorizationContext_decode_success
           (mkWorld with_session (Some info_4)) accepting
           (Some claim_fields) (VObj alice) eq_refl eq_refl).
Defined.

(** Whatever the context and the decoder, the resolver returns a verdict
    (it never throws) whose two parameters are named [jwt] and
    [isAuthenticated]; the second wraps the verdict's flag; an
    authenticated verdict's [jwtParam] wraps its [jwt], an unauthenticated
    one wraps the empty object and has no [jwt]. *)
Theorem getAuthorizationContext_verdict_shape
    (authorization : option Neo4jGraphQLAuthorization)
    (jwtPayloadFieldsMap : option (gmap string string)) (w : world) :
  ∃ ac w' t,
    getAuthorizationContext authorization jwtPayloadFieldsMap w =
    (Return ac, w', t) ∧
    param_name (jwtParam ac) = "jwt" ∧
    param_name (isAuthenticatedParam ac) = "isAuthenticated" ∧
    param_value (isAuthenticatedParam ac) = VBool (isAuthenticated ac) ∧
    (if isAuthenticated ac
     then param_value (jwtParam ac) = jwt ac
     else param_value (jwtParam ac) = VObj ∅ ∧ jwt ac = VUndefined
          ∧ claims ac = None).
Proof.
  destruct (getAuthorizationContext_cases authorization
              jwtPayloadFieldsMap w)
    as [[_ Hrun] | [(_ & _ & Hrun) | [(_ & a & v & _ & _ & Hrun)
                                     | (_ & a & e & _ & _ & Hrun)]]];
    rewrite Hrun; do 3 eexists; (split; [reflexivity |]); simpl; done.
Qed.

(** The resolver touches nothing but the [jwt] property of the context: the
    version cache and every other property are as before, a context that
    carries claims is not written at all, and the decoder is called at
    most once, on the context as it was. *)
Theorem getAuthorizationContext_frame
    (authorization : option Neo4jGraphQLAuthorization)
    (jwtPayloadFieldsMap : option (gmap string string)) (w : world) :
  ∀ r w' t,
    getAuthorizationContext authorization jwtPayloadFieldsMap w =
    (r, w', t) →
    neo4jDatabaseInfo w' = neo4jDatabaseInfo w ∧
    (∀ k, k ≠ "jwt" → context w' !! k = context w !! k) ∧
    (toBoolean (get (context w) "jwt") = true → w' = w) ∧
    (t = [] ∨ t = [EvDecode (context w)]).
Proof.
  intros r w' t Hrun.
  destruct (getAuthorizationContext_cases authorization
              jwtPayloadFieldsMap w)
    as [[Hj Hrun'] | [(Hj & _ & Hrun') | [(Hj & a & v & _ & _ & Hrun')
                                     | (Hj & a & e & _ & _ & Hrun')]]];
    rewrite Hrun' in Hrun; simplify_eq; simpl; split_and!; auto;
    try congruence.
  intros k Hk. by rewrite lookup_insert_ne.
Qed.

Lemma getAuthorizationContext_frame_witness :
  ∃ r w' t,
    getAuthorizationContext (Some accepting) None
      (mkWorld with_session (Some info_4)) = (r, w', t) ∧
    neo4jDatabaseInfo w' = Some info_4 ∧
    (∀ k, k ≠ "jwt" → context w' !! k = with_session !! k) ∧
    (toBoolean (get with_session "jwt") = true →
     w' = mkWorld with_session (Some info_4)) ∧
    (t = [] ∨ t = [EvDecode with_session]).
Proof.
  destruct (getAuthorizationContext (Some accepting) None
              (mkWorld with_session (Some info_4)))
    as [[r w'] t] eqn:Hrun.
  exists r, w', t. split; [reflexivity |].
  exact (getAuthorizationContext_frame (Some accepting) None
           (mkWorld with_session (Some info_4)) r w' t Hrun).
Defined.

(** No second decode within a request: once a decode has produced claims
    (a truthy value), every later resolution on the same context returns
    those claims as authenticated without calling any decoder. *)
Theorem getAuthorizationContext_decodes_once
    (w : world) (authorization : Neo4jGraphQLAuthorization)
    (jwtPayloadFieldsMap : option (gmap string string)) (v : value) :
  toBoolean (get (context w) "jwt") = false →
  decode authorization (context w) = Return v →
  toBoolean v = true →
  ∃ ac w',
    getAuthorizationContext (Some authorization) jwtPayloadFieldsMap w =
    (Return ac, w', [EvDecode (context w)]) ∧
    ∀ authorization' jwtPayloadFieldsMap',
      getAuthorizationContext authorization' jwtPayloadFieldsMap' w' =
      (Return (mkAuthorizationContext true v (mkNamedParam "jwt" v)
                 (mkNamedParam "isAuthenticated" (VBool true)) None),
       w', []).
Proof.
  intros Hjwt Hdecode Hv. do 2 eexists. split.
  - destruct (getAuthorizationContext_cases (Some authorization)
                jwtPayloadFieldsMap w)
      as [[? _] | [(_ & ? & _) | [(_ & a & v' & Ha & Hd & Hrun)
                                 | (_ & a & e & Ha & Hd & _)]]];
      simplify_eq; [congruence | | congruence].
    rewrite Hd in Hdecode. simplify_eq. exact Hrun.
  - intros authorization' fields'.
    destruct (getAuthorizationContext_cases authorization' fields'
                (mkWorld (<["jwt" := v]> (context w))
                         (neo4jDatabaseInfo w)))
      as [[_ Hrun] | [(Hj & _) | [(Hj & _) | (Hj & _)]]]; simpl in *.
    + rewrite Hrun. unfold get. by rewrite lookup_insert_eq.
    + unfold get in Hj. rewrite lookup_insert_eq in Hj. simpl in Hj.
      congruence.
    + unfold get in Hj. rewrite lookup_insert_eq in Hj. simpl in Hj.
      congruence.
    + unfold get in Hj. rewrite lookup_insert_eq in Hj. simpl in Hj.
      congruence.
Qed.

Lemma getAuthorizationContext_decodes_once_witness :
  ∃ ac w',
    getAuthorizationContext (Some accepting) None
      (mkWorld with_session None) =
    (Return ac, w', [EvDecode with_session]) ∧
    ∀ authorization' jwtPayloadFieldsMap',
      getAuthorizationContext authorization' jwtPayloadFieldsMap' w' =
      (Return (mkAuthorizationContext true (VObj alice)
                 (mkNamedParam "jwt" (VObj alice))
                 (mkNamedParam "isAuthenticated" (VBool true)) None),
       w', []).
Proof.
  exact (getAuthorizationContext_decodes_once (mkWorld with_session None)
           accepting None (VObj alice) eq_refl eq_refl eq_refl).
Defined.

(** The verdict is unauthenticated exactly when the context carries no
    claims, a decoder is configured and its decode throws. *)
Theorem getAuthorizationContext_unauthenticated_iff
    (authorization : option Neo4jGraphQLAuthorization)
    (jwtPayloadFieldsMap : option (gmap string string)) (w : world) :
  ∀ ac w' t,
    getAuthorizationContext authorization jwtPayloadFieldsMap w =
    (Return ac, w', t) →
    (isAuthenticated ac = false ↔
     toBoolean (get (context w) "jwt") = false ∧
     ∃ a e, authorization = Some a ∧ decode a (context w) = Throw e).
Proof.
  intros ac w' t Hrun.
  destruct (getAuthorizationContext_cases authorization
              jwtPayloadFieldsMap w)
    as [[Hj Hrun'] | [(Hj & Hn & Hrun') | [(Hj & a & v & Ha & Hd & Hrun')
                                     | (Hj & a & e & Ha & Hd & Hrun')]]];
    rewrite Hrun' in Hrun; simplify_eq; simpl.
  - split; [done |]. intros [? _]. congruence.
  - split; [done |]. intros (_ & a & e & ? & _). done.
  - split; [done |]. intros (_ & a' & e & ? & ?). simplify_eq. congruence.
  - split; [| done]. intros _. split; [done |]. by exists a, e.
Qed.

Lemma getAuthorizationContext_unauthenticated_iff_witness :
  ∃ ac w' t,
    getAuthorizationContext (Some rejecting) None (mkWorld ∅ None) =
    (Return ac, w', t) ∧
    (isAuthenticated ac = false ↔
     toBoolean (get (∅ : obj) "jwt") = false ∧
     ∃ a e, Some rejecting = Some a ∧ decode a ∅ = Throw e).
Proof.
  destruct (getAuthorizationContext_returns (Some rejecting) None
              (mkWorld ∅ None)) as (ac & w' & t & Hrun).
  exists ac, w', t. split; [exact Hrun |].
  exact (getAuthorizationContext_unauthenticated_iff (Some rejecting) None
           (mkWorld ∅ None) ac w' t Hrun).
Defined.

End AuthorizationFacts.

(** ** Further properties of the request wrapper *)

Module ResolverFacts.
Import Wrapper Sample Cases WrapperSpec AuthorizationFacts.

#[local] Transparent wp.

Lemma wp_of_run {S E A} (m : M S E A) (s : S)
    (Q : outcome A → S → list E → Prop) r s' t :
  m s = (r, s', t) → Q r s' t → wp m s Q.
Proof. unfold wp. by intros ->. Qed.

Lemma wp_try_catch {S E A} (m : M S E A) (h : exn → M S E A) (s : S)
    (Q : outcome A → S → list E → Prop) :
  wp m s (λ r s' t,
    match r with
    | Return a => Q (Return a) s' t
    | Throw e => wp (h e) s' (λ r' s'' t', Q r' s'' (t ++ t'))
    end) →
  wp (try_catch m h) s Q.
Proof.
  unfold wp, try_catch. destruct (m s) as [[[a | e] s'] t]; [done |].
  by destruct (h e s') as [[r' s''] t'].
Qed.

#[local] Opaque wp.

(** Runs a wrapper to the end of each of its paths, with the exact result
    of the authorization resolver on each of them. *)
Ltac wp_paths :=
  repeat first
    [ wp_step
    | lazymatch goal with
      | |- wp (try_catch _ _) _ _ => apply wp_try_catch
      | |- wp (if ?c then _ else _) _ _ => destruct c eqn:?
      | |- wp (match ?x with Some _ => _ | None => _ end) _ _ =>
          destruct x eqn:?
      | |- wp (getAuthorizationContext ?a ?f) ?w _ =>
          let Hrun := fresh "Hauth" in
          destruct (getAuthorizationContext_cases a f w)
            as [[? Hrun] | [(? & ? & Hrun)
               | [(? & ? & ? & ? & ? & Hrun) | (? & ? & ? & ? & ? & Hrun)]]];
          (eapply wp_of_run; [exact Hrun |]); clear Hrun
      | |- match ?r with Return _ => _ | Throw _ => _ end =>
          destruct r eqn:?
      end ];
  cbn [context neo4jDatabaseInfo app] in *.

(** Lookups in a context whose [jwt] or [executionContext] was written. *)
Ltac ctx_lookup :=
  unfold get in *; rewrite ?lookup_insert_eq, ?lookup_insert_ne by done.

(** A request without a handle takes the wrapper's default driver: the
    driver is written to the caller's context and the executor wraps it. *)
Theorem wrapResolver_default_driver
    (getNeo4jDatabaseInfo :
       Executor value → outcome (Neo4jDatabaseInfo value))
    (resolverArgs : WrapResolverArguments) (next : resolver)
    (root args info : value) (w : world) (d : nat) :
  toBoolean (get (context w) "executionContext") = false →
  driver resolverArgs = Some d →
  ∀ r w' t,
    wrapResolver getNeo4jDatabaseInfo resolverArgs next root args info w =
    (r, w', t) →
    get (context w') "executionContext" = VHost d
    ∧ (∃ e, EvNewExecutor e ∈ t)
    ∧ (∀ e, EvNewExecutor e ∈ t → executionContext e = VHost d).
Proof.
  intros Hh Hd. refine (wp_run _ _ _ _). unfold wrapResolver.
  do 2 wp_step. rewrite Hh, Hd. cbn [negb]. wp_go.
  all: match goal with
       | H : ∀ k, k ≠ "jwt" → _ |- _ =>
           pose proof (H "executionContext" ltac:(done)) as Hec;
           rewrite lookup_insert_eq in Hec
       end.
  all: unfold get in *; rewrite ?lookup_insert_ne by done; rewrite Hec.
  all: split; [reflexivity |]; split;
    [eexists; rewrite !elem_of_app, !elem_of_cons; eauto |].
  all: intros ex Hex; trace_cases Hex; simpl.
  all: unfold get; rewrite ?lookup_insert_ne by done; rewrite ?Hec; done.
Qed.

Lemma wrapResolver_default_driver_witness :
  ∃ r w' t,
    wrapResolver db_5 plain_args echo VUndefined VUndefined VUndefined
      (mkWorld ∅ None) = (r, w', t) ∧
    get (context w') "executionContext" = VHost 7
    ∧ (∃ e, EvNewExecutor e ∈ t)
    ∧ (∀ e, EvNewExecutor e ∈ t → executionContext e = VHost 7).
Proof.
  destruct (wrapResolver db_5 plain_args echo
              VUndefined VUndefined VUndefined (mkWorld ∅ None))
    as [[r w'] t] eqn:Hrun.
  exists r, w', t. split; [reflexivity |].
  exact (wrapResolver_default_driver db_5 plain_args echo
           VUndefined VUndefined VUndefined (mkWorld ∅ None) 7
           eq_refl eq_refl r w' t Hrun).
Defined.

(** The wrapper writes the caller's context at [executionContext] and [jwt]
    only, and the executor takes its query and session options from the
    caller's context. *)
Theorem wrapResolver_context_frame
    (getNeo4jDatabaseInfo :
       Executor value → outcome (Neo4jDatabaseInfo value))
    (resolverArgs : WrapResolverArguments) (next : resolver)
    (root args info : value) (w : world) :
  ∀ r w' t,
    wrapResolver getNeo4jDatabaseInfo resolverArgs next root args info w =
    (r, w', t) →
    (∀ k, k ≠ "jwt" → k ≠ "executionContext" →
          context w' !! k = context w !! k)
    ∧ (∀ e, EvNewExecutor e ∈ t →
         cypherQueryOptions e = get (context w) "cypherQueryOptions"
         ∧ sessionConfig e = get (context w) "sessionConfig").
Proof.
  refine (wp_run _ _ _ _). unfold wrapResolver. wp_go.
  all: split; [| intros ex Hex; trace_cases Hex; simpl].
  all: try done.
  all: try (intros k Hj He; rewrite ?lookup_insert_ne by done;
            match goal with
            | H : ∀ k, k ≠ "jwt" → _ |- _ => rewrite H by done
            end;
            by rewrite ?lookup_insert_ne by done).
  all: unfold get; rewrite ?lookup_insert_ne by done.
  all: match goal with
       | H : ∀ k, k ≠ "jwt" → _ |- _ =>
           rewrite !H by done
       end.
  all: by rewrite ?lookup_insert_ne by done.
Qed.

Lemma wrapResolver_context_frame_witness :
  ∃ r w' t,
    wrapResolver db_5 plain_args echo VUndefined VUndefined VUndefined
      (mkWorld with_options None) = (r, w', t) ∧
    (∀ k, k ≠ "jwt" → k ≠ "executionContext" →
          context w' !! k = with_options !! k)
    ∧ (∀ e, EvNewExecutor e ∈ t →
         cypherQueryOptions e = get with_options "cypherQueryOptions"
         ∧ sessionConfig e = get with_options "sessionConfig").
Proof.
  destruct (wrapResolver db_5 plain_args echo
              VUndefined VUndefined VUndefined (mkWorld with_options None))
    as [[r w'] t] eqn:Hrun.
  exists r, w', t. split; [reflexivity |].
  exact (wrapResolver_context_frame db_5 plain_args echo
           VUndefined VUndefined VUndefined (mkWorld with_options None)
           r w' t Hrun).
Defined.

(** A trace without version queries has none to filter. *)
Lemma no_queries_filter (t : list event) :
  Forall (λ e, is_version_query e = false) t →
  List.filter is_version_query t = [].
Proof.
  induction 1 as [| e t He _ IH]; [done |]. simpl. by rewrite He.
Qed.

Lemma decode_events_no_query (t : list event) :
  Forall (λ e, is_decode e = true) t →
  Forall (λ e, is_version_query e = false) t.
Proof. intros H. eapply Forall_impl; [exact H |]. by intros []. Qed.

(** One request on a cache without a version, through a wrapper without
    override, against a database that answers. *)
Lemma wrapResolver_populates
    (getNeo4jDatabaseInfo :
       Executor value → outcome (Neo4jDatabaseInfo value))
    (resolverArgs : WrapResolverArguments) (next : resolver)
    (root args info : value) (w : world) :
  toBoolean (get (context w) "executionContext") = true
  ∨ is_Some (driver resolverArgs) →
  dbInfo resolverArgs = None →
  toBoolean (optional_version (neo4jDatabaseInfo w)) = false →
  (∀ e, ∃ d, getNeo4jDatabaseInfo e = Return d) →
  ∀ r w' t,
    wrapResolver getNeo4jDatabaseInfo resolverArgs next root args info w =
    (r, w', t) →
    ∃ ex d,
      getNeo4jDatabaseInfo ex = Return d ∧
      neo4jDatabaseInfo w' = Some d ∧
      List.filter is_version_query t = [EvGetNeo4jDatabaseInfo ex] ∧
      (∀ root' args' composed info',
         EvNext root' args' composed info' ∈ t →
         context w' !! "neo4jDatabaseInfo" = None →
         getProp composed "neo4jDatabaseInfo" = VDatabaseInfo d).
Proof.
  intros Hhandle Hd Hv Hdb. refine (wp_run _ _ _ _). unfold wrapResolver.
  rewrite Hd. wp_go.
  all: try (destruct Hhandle as [Hh | [? ?]];
            [by rewrite Hh in * | congruence]).
  all: try (rewrite Hv in *; discriminate).
  all: try match goal with
           | Hq : _ ?e = Throw _ |- _ => destruct (Hdb e); congruence
           end.
  all: do 2 eexists; split_and!; [eassumption | reflexivity | |].
  all: try (rewrite List.filter_app, no_queries_filter
              by (by apply decode_events_no_query); reflexivity).
  all: intros root' args' composed info' Hnext; trace_cases Hnext.
  all: intros Hnone; simpl; unfold get, internalContext.
  all: erewrite lookup_union_Some_l; [reflexivity |].
  all: rewrite lookup_union_r by done.
  all: by repeat (rewrite lookup_insert_ne by done); rewrite lookup_insert_eq.
Qed.

(** A version query that fails is not swallowed: with nothing usable in the
    cache and no override, the wrapper throws the error of the query, the
    cache stays as it was and the next step is not invoked. *)
Theorem wrapResolver_version_query_failure
    (getNeo4jDatabaseInfo :
       Executor value → outcome (Neo4jDatabaseInfo value))
    (resolverArgs : WrapResolverArguments) (next : resolver)
    (root args info : value) (w : world) :
  toBoolean (get (context w) "executionContext") = true
  ∨ is_Some (driver resolverArgs) →
  dbInfo resolverArgs = None →
  toBoolean (optional_version (neo4jDatabaseInfo w)) = false →
  (∀ e, ∃ x, getNeo4jDatabaseInfo e = Throw x) →
  ∀ r w' t,
    wrapResolver getNeo4jDatabaseInfo resolverArgs next root args info w =
    (r, w', t) →
    (∃ ex x, getNeo4jDatabaseInfo ex = Throw x ∧ r = Throw x ∧
             EvGetNeo4jDatabaseInfo ex ∈ t) ∧
    neo4jDatabaseInfo w' = neo4jDatabaseInfo w ∧
    (∀ root' args' composed info',
       EvNext root' args' composed info' ∉ t).
Proof.
  intros Hhandle Hd Hv Hdb. refine (wp_run _ _ _ _). unfold wrapResolver.
  rewrite Hd. wp_go.
  all: try (destruct Hhandle as [Hh | [? ?]];
            [by rewrite Hh in * | congruence]).
  all: try (rewrite Hv in *; discriminate).
  all: try match goal with
           | Hq : _ ?e = Return _ |- _ => destruct (Hdb e); congruence
           end.
  all: split_and!; [| reflexivity |].
  all: try (do 2 eexists; split_and!; [eassumption | reflexivity |];
            rewrite !elem_of_app, !elem_of_cons; eauto).
  all: intros root' args' composed info' Hnext; trace_cases Hnext.
Qed.

Lemma wrapResolver_version_query_failure_witness :
  ∃ r w' t,
    wrapResolver db_down plain_args echo VUndefined VUndefined VUndefined
      (mkWorld with_session None) = (r, w', t) ∧
    (∃ ex x, db_down ex = Throw x ∧ r = Throw x ∧
             EvGetNeo4jDatabaseInfo ex ∈ t) ∧
    neo4jDatabaseInfo w' = None ∧
    (∀ root' args' composed info',
       EvNext root' args' composed info' ∉ t).
Proof.
  destruct (wrapResolver db_down plain_args echo
              VUndefined VUndefined VUndefined (mkWorld with_session None))
    as [[r w'] t] eqn:Hrun.
  exists r, w', t. split; [reflexivity |].
  refine (wrapResolver_version_query_failure db_down plain_args echo
            VUndefined VUndefined VUndefined (mkWorld with_session None)
            (or_introl eq_refl) eq_refl eq_refl _ r w' t Hrun).
  intros e. exists (Error "connection refused"). reflexivity.
Defined.

(** A version query that answers fills the cache: the request queries the
    database once, leaves the answer in the module-level cache and hands it
    on in the composed context (unless the caller's context has a
    [neo4jDatabaseInfo] property of its own). *)
Theorem wrapResolver_cache_population
    (getNeo4jDatabaseInfo :
       Executor value → outcome (Neo4jDatabaseInfo value))
    (resolverArgs : WrapResolverArguments) (next : resolver)
    (root args info : value) (w : world) :
  toBoolean (get (context w) "executionContext") = true
  ∨ is_Some (driver resolverArgs) →
  dbInfo resolverArgs = None →
  toBoolean (optional_version (neo4jDatabaseInfo w)) = false →
  (∀ e, ∃ d, getNeo4jDatabaseInfo e = Return d) →
  ∀ r w' t,
    wrapResolver getNeo4jDatabaseInfo resolverArgs next root args info w =
    (r, w', t) →
    ∃ ex d,
      getNeo4jDatabaseInfo ex = Return d ∧
      neo4jDatabaseInfo w' = Some d ∧
      List.filter is_version_query t = [EvGetNeo4jDatabaseInfo ex] ∧
      (∀ root' args' composed info',
         EvNext root' args' composed info' ∈ t →
         context w' !! "neo4jDatabaseInfo" = None →
         getProp composed "neo4jDatabaseInfo" = VDatabaseInfo d).
Proof. apply wrapResolver_populates. Qed.

Lemma wrapResolver_cache_population_witness :
  ∃ r w' t ex d,
    wrapResolver db_5 plain_args echo VUndefined VUndefined VUndefined
      (mkWorld with_session None) = (r, w', t) ∧
    db_5 ex = Return d ∧
    neo4jDatabaseInfo w' = Some d ∧
    List.filter is_version_query t = [EvGetNeo4jDatabaseInfo ex] ∧
    (∀ root' args' composed info',
       EvNext root' args' composed info' ∈ t →
       context w' !! "neo4jDatabaseInfo" = None →
       getProp composed "neo4jDatabaseInfo" = VDatabaseInfo d).
Proof.
  destruct (wrapResolver db_5 plain_args echo
              VUndefined VUndefined VUndefined (mkWorld with_session None))
    as [[r w'] t] eqn:Hrun.
  destruct (wrapResolver_cache_population db_5 plain_args echo
              VUndefined VUndefined VUndefined (mkWorld with_session None)
              (or_introl eq_refl) eq_refl eq_refl
              (λ e, ex_intro _ info_5 eq_refl) r w' t Hrun)
    as (ex & d & H).
  exists r, w', t, ex, d. split; [reflexivity | exact H].
Defined.

(** Across a sequence of requests the database is asked once: starting
    from a cache without a version, with no overrides, every request
    provided with a handle and a database that answers with versioned
    information, the first request queries and no later one does. *)
Theorem serve_queries_once
    (getNeo4jDatabaseInfo :
       Executor value → outcome (Neo4jDatabaseInfo value))
    (rq : request) (rs : list request)
    (cache : option (Neo4jDatabaseInfo value)) :
  toBoolean (optional_version cache) = false →
  Forall (λ r, dbInfo (req_wrapper r) = None ∧
               (toBoolean (get (req_context r) "executionContext") = true
                ∨ is_Some (driver (req_wrapper r)))) (rq :: rs) →
  (∀ e, ∃ d, getNeo4jDatabaseInfo e = Return d ∧
             toBoolean (version d) = true) →
  ∃ d t,
    serve getNeo4jDatabaseInfo (rq :: rs) cache = (Some d, t) ∧
    toBoolean (version d) = true ∧
    length (List.filter is_version_query t) = 1.
Proof.
  intros Hcache Hrs Hdb.
  apply Forall_cons in Hrs as [[Hov Hhandle] Hrs]. simpl.
  destruct (wrapResolver _ _ _ _ _ _ _) as [[r w'] t] eqn:Hrun.
  apply wrapResolver_populates in Hrun
    as (ex & d & Hq & Hw' & Hfilter & _); try done;
    [| intros e; destruct (Hdb e) as (d' & ? & _); eauto].
  destruct (Hdb ex) as (d' & Hq' & Hv). rewrite Hq in Hq'. simplify_eq.
  rewrite Hw'.
  assert (∃ t', serve getNeo4jDatabaseInfo rs (Some d') = (Some d', t') ∧
                Forall (λ e, is_version_query e = false) t')
    as (t' & Hserve & Ht').
  { clear -Hrs Hv. induction Hrs as [| rq' rs [Hov' _] _ IH]; simpl.
    - by exists [].
    - destruct (wrapResolver _ _ _ _ _ _ _) as [[r w'] t] eqn:Hrun.
      apply (wrapResolver_cached _ _ _ _ _ _ _ d' Hv Hov') in Hrun
        as [Hcache Ht].
      rewrite Hcache. destruct IH as (t' & -> & Ht').
      exists (t ++ t'). split; [done |]. by apply Forall_app. }
  rewrite Hserve. exists d', (t ++ t'). split_and!; [done | done |].
  by rewrite List.filter_app, Hfilter, (no_queries_filter t').
Qed.

Lemma serve_queries_once_witness :
  ∃ d t,
    serve db_5 [plain_request; plain_request; plain_request] None =
    (Some d, t) ∧
    toBoolean (version d) = true ∧
    length (List.filter is_version_query t) = 1.
Proof.
  apply (serve_queries_once db_5 plain_request
           [plain_request; plain_request] None).
  - reflexivity.
  - repeat constructor.
  - intros e. exists info_5. split; reflexivity.
Defined.

(** A property of the composed context that the caller's context lacks is
    the one of [internalContext]. *)
Lemma composed_internal (internal context : obj) (k : string) (v : value) :
  context !! k = None → internal !! k = Some v →
  get ((context ∪ internal) ∪ context) k = v.
Proof.
  intros Hc Hi. unfold get.
  erewrite lookup_union_Some_l; [reflexivity |].
  by rewrite lookup_union_r.
Qed.

(** What the wrapper derives reaches the next step wherever the caller
    does not supply a property of the same name: the schema references and
    feature flags of the wrapper's arguments, the subscriptions flag
    computed from [features.subscriptions], and the executor that was
    built. *)
Theorem wrapResolver_internal_fields
    (getNeo4jDatabaseInfo :
       Executor value → outcome (Neo4jDatabaseInfo value))
    (resolverArgs : WrapResolverArguments) (next : resolver)
    (root args info : value) (w : world) :
  ∀ r w' t,
    wrapResolver getNeo4jDatabaseInfo resolverArgs next root args info w =
    (r, w', t) →
    ∀ root' args' composed info',
      EvNext root' args' composed info' ∈ t →
      (context w' !! "nodes" = None →
       getProp composed "nodes" = nodes resolverArgs) ∧
      (context w' !! "relationships" = None →
       getProp composed "relationships" = relationships resolverArgs) ∧
      (context w' !! "schemaModel" = None →
       getProp composed "schemaModel" = schemaModel resolverArgs) ∧
      (context w' !! "features" = None →
       getProp composed "features" = VObj (features resolverArgs)) ∧
      (context w' !! "subscriptionsEnabled" = None →
       getProp composed "subscriptionsEnabled" =
       VBool (toBoolean (get (features resolverArgs) "subscriptions"))) ∧
      (context w' !! "executor" = None →
       ∃ e, EvNewExecutor e ∈ t ∧
            getProp composed "executor" = VExecutor e).
Proof.
  refine (wp_run _ _ _ _). unfold wrapResolver. wp_go.
  all: intros root' args' composed info' Hnext; trace_cases Hnext.
  all: split_and!; intros Habsent.
  all: try (eexists; split;
            [rewrite !elem_of_app, !elem_of_cons; eauto |]).
  all: simpl; unfold internalContext;
    apply composed_internal; [exact Habsent |].
  all: by repeat (rewrite lookup_insert_ne by done); rewrite lookup_insert_eq.
Qed.

Lemma wrapResolver_internal_fields_witness :
  let context' := <["jwt" := VUndefined]> with_session in
  let executor := mkExecutor (VHost 9) VUndefined VUndefined in
  let verdict :=
    mkAuthorizationContext true VUndefined (mkNamedParam "jwt" VUndefined)
      (mkNamedParam "isAuthenticated" (VBool true)) None in
  let composed :=
    VObj (internalContext plain_args (VBool false) executor (Some info_5)
            verdict context' ∪ context') in
  wrapResolver db_5 plain_args echo VUndefined VUndefined VUndefined
    (mkWorld with_session None) =
  (Return composed, mkWorld context' (Some info_5),
   [EvNewExecutor executor; EvGetNeo4jDatabaseInfo executor;
    EvNext VUndefined VUndefined composed VUndefined]) ∧
  getProp composed "nodes" = VHost 1 ∧
  getProp composed "relationships" = VHost 2 ∧
  getProp composed "schemaModel" = VHost 3 ∧
  getProp composed "features" = VObj ∅ ∧
  getProp composed "subscriptionsEnabled" = VBool false ∧
  ∃ e, getProp composed "executor" = VExecutor e.
Proof.
  intros context' executor verdict composed.
  assert (wrapResolver db_5 plain_args echo VUndefined VUndefined VUndefined
            (mkWorld with_session None) =
          (Return composed, mkWorld context' (Some info_5),
           [EvNewExecutor executor; EvGetNeo4jDatabaseInfo executor;
            EvNext VUndefined VUndefined composed VUndefined])) as Hrun
    by (vm_compute; reflexivity).
  assert (EvNext VUndefined VUndefined composed VUndefined ∈
          [EvNewExecutor executor; EvGetNeo4jDatabaseInfo executor;
           EvNext VUndefined VUndefined composed VUndefined]) as Hnext
    by (do 2 apply list_elem_of_further; apply list_elem_of_here).
  destruct (wrapResolver_internal_fields _ _ _ _ _ _ _ _ _ _ Hrun
              _ _ _ _ Hnext)
    as (Hnodes & Hrel & Hschema & Hfeat & Hsub & Hexecutor).
  split; [exact Hrun |].
  split; [apply Hnodes; vm_compute; reflexivity |].
  split; [apply Hrel; vm_compute; reflexivity |].
  split; [apply Hschema; vm_compute; reflexivity |].
  split; [apply Hfeat; vm_compute; reflexivity |].
  split; [apply Hsub; vm_compute; reflexivity |].
  destruct Hexecutor as (e & _ & He); [vm_compute; reflexivity |].
  exists e. exact He.
Defined.

(** A failing decoder does not stop a request: with a handle in the
    context and a version in the cache, the wrapper still builds the
    executor and invokes the next step, returns what it returns, and passes
    on the unauthenticated verdict; the context's [jwt] is left
    undefined. *)
Theorem wrapResolver_decode_failure_degrades
    (getNeo4jDatabaseInfo :
       Executor value → outcome (Neo4jDatabaseInfo value))
    (resolverArgs : WrapResolverArguments) (next : resolver)
    (root args info : value) (w : world)
    (a : Neo4jGraphQLAuthorization) (x : exn) :
  toBoolean (get (context w) "executionContext") = true →
  toBoolean (get (context w) "jwt") = false →
  authorization resolverArgs = Some a →
  decode a (context w) = Throw x →
  dbInfo resolverArgs = None →
  toBoolean (optional_version (neo4jDatabaseInfo w)) = true →
  let context' := <["jwt" := VUndefined]> (context w) in
  let executor :=
    mkExecutor (get (context w) "executionContext")
      (get (context w) "cypherQueryOptions")
      (get (context w) "sessionConfig") in
  let verdict :=
    mkAuthorizationContext false VUndefined (mkNamedParam "jwt" (VObj ∅))
      (mkNamedParam "isAuthenticated" (VBool false)) None in
  ∃ composed,
    wrapResolver getNeo4jDatabaseInfo resolverArgs next root args info w =
    (next root args composed info,
     mkWorld context' (neo4jDatabaseInfo w),
     [EvDecode (context w); EvNewExecutor executor;
      EvNext root args composed info]) ∧
    (context w !! "authorization" = None →
     getProp composed "authorization" = VAuthorization verdict).
Proof.
  intros Hh Hj Ha Hd Hdb Hv context' executor verdict.
  subst context' executor verdict.
  destruct (wrapResolver _ _ _ _ _ _ _) as [[r w'] t] eqn:Hrun.
  revert r w' t Hrun. refine (wp_run _ _ _ _). unfold wrapResolver.
  rewrite Hdb, Ha. do 2 wp_step. rewrite Hh. cbn [negb]. wp_paths.
  all: try congruence.
  all: try (rewrite Hv in *; discriminate).
  all: try (rewrite Hj in *; discriminate).
  all: simplify_eq; simpl.
  all: unfold get; rewrite ?lookup_insert_ne by done.
  all: eexists; split; [reflexivity |].
  all: intros Hnone; simpl; unfold internalContext.
  all: apply composed_internal; [by rewrite lookup_insert_ne |].
  all: by repeat (rewrite lookup_insert_ne by done); rewrite lookup_insert_eq.
Qed.

Lemma wrapResolver_decode_failure_degrades_witness :
  ∃ composed,
    wrapResolver db_5 rejecting_args echo VUndefined VUndefined VUndefined
      (mkWorld with_session (Some info_4)) =
    (echo VUndefined VUndefined composed VUndefined,
     mkWorld (<["jwt" := VUndefined]> with_session) (Some info_4),
     [EvDecode with_session;
      EvNewExecutor (mkExecutor (get with_session "executionContext")
                       (get with_session "cypherQueryOptions")
                       (get with_session "sessionConfig"));
      EvNext VUndefined VUndefined composed VUndefined]) ∧
    (with_session !! "authorization" = None →
     getProp composed "authorization" =
     VAuthorization
       (mkAuthorizationContext false VUndefined
          (mkNamedParam "jwt" (VObj ∅))
          (mkNamedParam "isAuthenticated" (VBool false)) None)).
Proof.
  exact (wrapResolver_decode_failure_degrades db_5 rejecting_args echo
           VUndefined VUndefined VUndefined
           (mkWorld with_session (Some info_4)) rejecting
           (Error "invalid token")
           eq_refl eq_refl eq_refl eq_refl eq_refl eq_refl).
Defined.

(** The request wrapper is a straight line.  Either it throws the
    configuration error at once, or it calls, in this order, the decoder
    (at most once), the executor constructor (once), the version query (at
    most once) and the next step; it then returns whatever the next step
    returns or throws.  The only other error it can throw is the error of
    the version query, in which case the next step is not invoked. *)
Theorem wrapResolver_run_shape
    (getNeo4jDatabaseInfo :
       Executor value → outcome (Neo4jDatabaseInfo value))
    (resolverArgs : WrapResolverArguments) (next : resolver)
    (root args info : value) (w : world) :
  ∀ r w' t,
    wrapResolver getNeo4jDatabaseInfo resolverArgs next root args info w =
    (r, w', t) →
    (r = Throw (Error NO_DRIVER_MESSAGE) ∧ w' = w ∧ t = [])
    ∨
    ∃ td ex tq,
      (td = [] ∨ ∃ c, td = [EvDecode c]) ∧
      (tq = [] ∨ tq = [EvGetNeo4jDatabaseInfo ex]) ∧
      ((∃ composed,
          t = td ++ EvNewExecutor ex :: tq
                 ++ [EvNext root args composed info] ∧
          r = next root args composed info)
       ∨
       (∃ x,
          t = td ++ [EvNewExecutor ex; EvGetNeo4jDatabaseInfo ex] ∧
          getNeo4jDatabaseInfo ex = Throw x ∧
          r = Throw x)).
Proof.
  refine (wp_run _ _ _ _). unfold wrapResolver. wp_paths.
  all: try (left; by destruct w).
  all: right.
  all: solve
    [ (exists [] + eexists [_]); eexists; (exists [] + eexists [_]);
      split_and!;
      [ (by left) + (right; eexists; reflexivity)
      | (by left) + (right; reflexivity)
      | (left; eexists; split; reflexivity)
        + (right; eexists; split_and!;
           [reflexivity | eassumption | reflexivity]) ] ].
Qed.

Lemma wrapResolver_run_shape_witness :
  ∃ r w' t,
    wrapResolver db_down plain_args echo VUndefined VUndefined VUndefined
      (mkWorld with_session None) = (r, w', t) ∧
    ((r = Throw (Error NO_DRIVER_MESSAGE)
      ∧ w' = mkWorld with_session None ∧ t = [])
     ∨
     ∃ td ex tq,
       (td = [] ∨ ∃ c, td = [EvDecode c]) ∧
       (tq = [] ∨ tq = [EvGetNeo4jDatabaseInfo ex]) ∧
       ((∃ composed,
           t = td ++ EvNewExecutor ex :: tq
                  ++ [EvNext VUndefined VUndefined composed VUndefined] ∧
           r = echo VUndefined VUndefined composed VUndefined)
        ∨
        (∃ x,
           t = td ++ [EvNewExecutor ex; EvGetNeo4jDatabaseInfo ex] ∧
           db_down ex = Throw x ∧
           r = Throw x))).
Proof.
  destruct (wrapResolver db_down plain_args echo
              VUndefined VUndefined VUndefined (mkWorld with_session None))
    as [[r w'] t] eqn:Hrun.
  exists r, w', t. split; [reflexivity |].
  exact (wrapResolver_run_shape db_down plain_args echo
           VUndefined VUndefined VUndefined (mkWorld with_session None)
           r w' t Hrun).
Defined.

(** A successful decode is shared with the rest of the request: with a
    handle in the context and a version in the cache, the decoded claims
    are written to the caller's context, the next step finds them as [jwt]
    in the composed context, and the verdict handed on carries them. *)
Theorem wrapResolver_decode_success
    (getNeo4jDatabaseInfo :
       Executor value → outcome (Neo4jDatabaseInfo value))
    (resolverArgs : WrapResolverArguments) (next : resolver)
    (root args info : value) (w : world)
    (a : Neo4jGraphQLAuthorization) (v : value) :
  toBoolean (get (context w) "executionContext") = true →
  toBoolean (get (context w) "jwt") = false →
  authorization resolverArgs = Some a →
  decode a (context w) = Return v →
  dbInfo resolverArgs = None →
  toBoolean (optional_version (neo4jDatabaseInfo w)) = true →
  let executor :=
    mkExecutor (get (context w) "executionContext")
      (get (context w) "cypherQueryOptions")
      (get (context w) "sessionConfig") in
  let verdict :=
    mkAuthorizationContext true v (mkNamedParam "jwt" v)
      (mkNamedParam "isAuthenticated" (VBool true))
      (jwtPayloadFieldsMap resolverArgs) in
  ∃ composed,
    wrapResolver getNeo4jDatabaseInfo resolverArgs next root args info w =
    (next root args composed info,
     mkWorld (<["jwt" := v]> (context w)) (neo4jDatabaseInfo w),
     [EvDecode (context w); EvNewExecutor executor;
      EvNext root args composed info]) ∧
    getProp composed "jwt" = v ∧
    (context w !! "authorization" = None →
     getProp composed "authorization" = VAuthorization verdict).
Proof.
  intros Hh Hj Ha Hd Hdb Hv executor verdict. subst executor verdict.
  destruct (wrapResolver _ _ _ _ _ _ _) as [[r w'] t] eqn:Hrun.
  revert r w' t Hrun. refine (wp_run _ _ _ _). unfold wrapResolver.
  rewrite Hdb, Ha. do 2 wp_step. rewrite Hh. cbn [negb]. wp_paths.
  all: try congruence.
  all: try (rewrite Hv in *; discriminate).
  all: simplify_eq.
  all: repeat match goal with
              | H1 : decode ?a ?c = Return _,
                H2 : decode ?a ?c = _ |- _ => rewrite H1 in H2
              end.
  all: simplify_eq; simpl.
  all: rewrite ?insert_insert_eq.
  all: unfold get; rewrite ?lookup_insert_ne by done.
  all: eexists; split; [reflexivity |].
  all: simpl; unfold internalContext; split.
  all: try (unfold get; erewrite lookup_union_Some_l; [reflexivity |];
            apply lookup_union_Some_l, lookup_insert_eq).
  all: intros Hnone.
  all: apply composed_internal; [by rewrite lookup_insert_ne |].
  all: by repeat (rewrite lookup_insert_ne by done); rewrite lookup_insert_eq.
Qed.

Lemma wrapResolver_decode_success_witness :
  ∃ composed,
    wrapResolver db_5 accepting_args echo VUndefined VUndefined VUndefined
      (mkWorld with_session (Some info_4)) =
    (echo VUndefined VUndefined composed VUndefined,
     mkWorld (<["jwt" := VObj alice]> with_session) (Some info_4),
     [EvDecode with_session;
      EvNewExecutor (mkExecutor (get with_session "executionContext")
                       (get with_session "cypherQueryOptions")
                       (get with_session "sessionConfig"));
      EvNext VUndefined VUndefined composed VUndefined]) ∧
    getProp composed "jwt" = VObj alice ∧
    (with_session !! "authorization" = None →
     getProp composed "authorization" =
     VAuthorization
       (mkAuthorizationContext true (VObj alice)
          (mkNamedParam "jwt" (VObj alice))
          (mkNamedParam "isAuthenticated" (VBool true))
          (jwtPayloadFieldsMap accepting_args))).
Proof.
  exact (wrapResolver_decode_success db_5 accepting_args echo
           VUndefined VUndefined VUndefined
           (mkWorld with_session (Some info_4)) accepting (VObj alice)
           eq_refl eq_refl eq_refl eq_refl eq_refl eq_refl).
Defined.

(** A request whose context carries claims keeps them and never calls the
    decoder, whatever decoder the wrapper was built with; the next step
    finds the same claims as [jwt] in the composed context. *)
Theorem wrapResolver_reuses_claims
    (getNeo4jDatabaseInfo :
       Executor value → outcome (Neo4jDatabaseInfo value))
    (resolverArgs : WrapResolverArguments) (next : resolver)
    (root args info : value) (w : world) :
  toBoolean (get (context w) "jwt") = true →
  ∀ r w' t,
    wrapResolver getNeo4jDatabaseInfo resolverArgs next root args info w =
    (r, w', t) →
    get (context w') "jwt" = get (context w) "jwt" ∧
    (∀ c, EvDecode c ∉ t) ∧
    (∀ root' args' composed info',
       EvNext root' args' composed info' ∈ t →
       getProp composed "jwt" = get (context w) "jwt").
Proof.
  intros Hj. refine (wp_run _ _ _ _). unfold wrapResolver. wp_paths.
  all: try done.
  all: unfold get in *;
    rewrite ?lookup_insert_ne in * by done; try congruence.
  all: try (rewrite Hj in *; discriminate).
  all: split_and!; [reflexivity | |].
  all: try (intros c Hc; by trace_cases Hc).
  all: intros root' args' composed info' Hnext; trace_cases Hnext.
  all: simpl; unfold get, internalContext.
  all: destruct (context w !! "jwt") as [claims |] eqn:Hclaims;
    [| done].
  all: erewrite lookup_union_Some_l; [reflexivity |].
  all: apply lookup_union_Some_l.
  all: by rewrite ?lookup_insert_ne by done.
Qed.

Lemma wrapResolver_reuses_claims_witness :
  ∃ r w' t,
    wrapResolver db_5 rejecting_args echo VUndefined VUndefined VUndefined
      (mkWorld with_claims None) = (r, w', t) ∧
    get (context w') "jwt" = VObj alice ∧
    (∀ c, EvDecode c ∉ t) ∧
    (∀ root' args' composed info',
       EvNext root' args' composed info' ∈ t →
       getProp composed "jwt" = VObj alice).
Proof.
  destruct (wrapResolver db_5 rejecting_args echo
              VUndefined VUndefined VUndefined (mkWorld with_claims None))
    as [[r w'] t] eqn:Hrun.
  exists r, w', t. split; [reflexivity |].
  exact (wrapResolver_reuses_claims db_5 rejecting_args echo
           VUndefined VUndefined VUndefined (mkWorld with_claims None)
           eq_refl r w' t Hrun).
Defined.

End ResolverFacts.

(** ** Further properties of the subscription wrapper *)

Module SubscriptionFacts.
Import Wrapper Sample Cases WrapperSpec ResolverFacts.

(** The decoder accepts the connection's token: the decoder is called once,
    on the [authorization] connection parameter, then the next step, whose
    context carries the decoded claims and the wrapper's claim-to-field
    mapping; the wrapper returns what the next step returns. *)
Theorem wrapSubscription_decode_success
    (code : string) (resolverArgs : WrapResolverArguments)
    (a : Neo4jGraphQLAuthorization) (next : resolver)
    (root args context info : value) (w : world) (v : value) :
  let token := getProp (contextParams context) "authorization" in
  toBoolean (get (features resolverArgs) "subscriptions") = true →
  toBoolean (getProp context "jwt") = false →
  authorization resolverArgs = Some a →
  toBoolean token = true ∨ globalAuthentication a = false →
  decodeBearerTokenWithVerify a token = Return v →
  ∃ composed,
    wrapSubscription code resolverArgs next root args context info w =
    (next root args composed info, w,
     [EvDecodeBearerToken token; EvNext root args composed info]) ∧
    getProp composed "jwt" = v ∧
    getProp composed "jwtPayloadFieldsMap" =
      of_option VMap (jwtPayloadFieldsMap resolverArgs).
Proof.
  intros token Hsub Hjwt Ha Hgate Hdecode. subst token.
  unfold wrapSubscription. eff_unfold.
  rewrite Hsub, Hjwt, Ha. cbn [negb].
  replace (negb _ && _) with false
    by (destruct Hgate as [-> | ->]; by rewrite ?andb_false_r).
  rewrite Hdecode. eexists. split; [reflexivity |].
  simpl. unfold get. split.
  - erewrite lookup_union_Some_l; [reflexivity |].
    rewrite lookup_insert_ne by done. apply lookup_insert_eq.
  - erewrite lookup_union_Some_l; [reflexivity |]. apply lookup_insert_eq.
Qed.

Lemma wrapSubscription_decode_success_witness :
  ∃ composed,
    wrapSubscription "FORBIDDEN" (subscription_args accepting) echo
      VUndefined VUndefined connection_with_token VUndefined
      (mkWorld ∅ None) =
    (echo VUndefined VUndefined composed VUndefined, mkWorld ∅ None,
     [EvDecodeBearerToken
        (getProp (contextParams connection_with_token) "authorization");
      EvNext VUndefined VUndefined composed VUndefined]) ∧
    getProp composed "jwt" = VObj alice ∧
    getProp composed "jwtPayloadFieldsMap" =
      of_option VMap (jwtPayloadFieldsMap (subscription_args accepting)).
Proof.
  exact (wrapSubscription_decode_success "FORBIDDEN"
           (subscription_args accepting) accepting echo
           VUndefined VUndefined connection_with_token VUndefined
           (mkWorld ∅ None) (VObj alice)
           eq_refl eq_refl eq_refl (or_introl eq_refl) eq_refl).
Defined.

(** Under mandatory global authentication a token that the decoder rejects
    closes the connection: the decoder's error is thrown as it is and the
    next step is not invoked. *)
Theorem wrapSubscription_decode_failure_is_fatal
    (code : string) (resolverArgs : WrapResolverArguments)
    (a : Neo4jGraphQLAuthorization) (next : resolver)
    (root args context info : value) (w : world) (x : exn) :
  let token := getProp (contextParams context) "authorization" in
  toBoolean (get (features resolverArgs) "subscriptions") = true →
  toBoolean (getProp context "jwt") = false →
  authorization resolverArgs = Some a →
  globalAuthentication a = true →
  toBoolean token = true →
  decodeBearerTokenWithVerify a token = Throw x →
  wrapSubscription code resolverArgs next root args context info w =
  (Throw x, w, [EvDecodeBearerToken token]).
Proof.
  intros token Hsub Hjwt Ha Hglobal Htoken Hdecode. subst token.
  unfold wrapSubscription. eff_unfold.
  rewrite Hsub, Hjwt, Ha, Htoken, Hglobal, Hdecode. reflexivity.
Qed.

Lemma wrapSubscription_decode_failure_is_fatal_witness :
  wrapSubscription "FORBIDDEN" (subscription_args rejecting) echo
    VUndefined VUndefined connection_with_token VUndefined
    (mkWorld ∅ None) =
  (Throw (Error "invalid token"), mkWorld ∅ None,
   [EvDecodeBearerToken
      (getProp (contextParams connection_with_token) "authorization")]).
Proof.
  exact (wrapSubscription_decode_failure_is_fatal "FORBIDDEN"
           (subscription_args rejecting) rejecting echo
           VUndefined VUndefined connection_with_token VUndefined
           (mkWorld ∅ None) (Error "invalid token")
           eq_refl eq_refl eq_refl eq_refl eq_refl eq_refl).
Defined.

(** Without mandatory global authentication a rejected token degrades to
    no claims: the next step is invoked and the [jwt] of its context is
    undefined, whatever the connection parameters and the connection
    context hold under that name. *)
Theorem wrapSubscription_decode_failure_degrades
    (code : string) (resolverArgs : WrapResolverArguments)
    (a : Neo4jGraphQLAuthorization) (next : resolver)
    (root args context info : value) (w : world) (x : exn) :
  let token := getProp (contextParams context) "authorization" in
  toBoolean (get (features resolverArgs) "subscriptions") = true →
  toBoolean (getProp context "jwt") = false →
  authorization resolverArgs = Some a →
  globalAuthentication a = false →
  decodeBearerTokenWithVerify a token = Throw x →
  ∃ composed o,
    wrapSubscription code resolverArgs next root args context info w =
    (next root args composed info, w,
     [EvDecodeBearerToken token; EvNext root args composed info]) ∧
    composed = VObj o ∧ o !! "jwt" = Some VUndefined.
Proof.
  intros token Hsub Hjwt Ha Hglobal Hdecode. subst token.
  unfold wrapSubscription. eff_unfold.
  rewrite Hsub, Hjwt, Ha, Hglobal, Hdecode. rewrite andb_false_r.
  do 2 eexists. split; [reflexivity |]. split; [reflexivity |].
  apply lookup_union_Some_l, lookup_insert_eq.
Qed.

Lemma wrapSubscription_decode_failure_degrades_witness :
  ∃ composed o,
    wrapSubscription "FORBIDDEN" (subscription_args lenient) echo
      VUndefined VUndefined connection_with_claims VUndefined
      (mkWorld ∅ None) =
    (echo VUndefined VUndefined composed VUndefined, mkWorld ∅ None,
     [EvDecodeBearerToken
        (getProp (contextParams connection_with_claims) "authorization");
      EvNext VUndefined VUndefined composed VUndefined]) ∧
    composed = VObj o ∧ o !! "jwt" = Some VUndefined.
Proof.
  exact (wrapSubscription_decode_failure_degrades "FORBIDDEN"
           (subscription_args lenient) lenient echo
           VUndefined VUndefined connection_with_claims VUndefined
           (mkWorld ∅ None) (Error "invalid token")
           eq_refl eq_refl eq_refl eq_refl eq_refl).
Defined.

(** With no decoder configured a connection without claims goes straight
    to the next step: no decoder call, no error, and the wrapper adds
    nothing but [plugin] and [schemaModel] to the merged context. *)
Theorem wrapSubscription_without_decoder
    (code : string) (resolverArgs : WrapResolverArguments) (next : resolver)
    (root args context info : value) (w : world) :
  toBoolean (get (features resolverArgs) "subscriptions") = true →
  toBoolean (getProp context "jwt") = false →
  authorization resolverArgs = None →
  let composed :=
    VObj (<["plugin" := get (features resolverArgs) "subscriptions"]>
            (<["schemaModel" := schemaModel resolverArgs]> ∅)
          ∪ (spread (contextParams context) ∪ spread context)) in
  wrapSubscription code resolverArgs next root args context info w =
  (next root args composed info, w, [EvNext root args composed info]).
Proof.
  intros Hsub Hjwt Ha composed. subst composed.
  unfold wrapSubscription. eff_unfold.
  rewrite Hsub, Hjwt, Ha. reflexivity.
Qed.

Lemma wrapSubscription_without_decoder_witness :
  let composed :=
    VObj (<["plugin" := VHost 4]> (<["schemaModel" := VHost 3]> ∅)
          ∪ (spread (contextParams connection_with_token)
             ∪ spread connection_with_token)) in
  wrapSubscription "FORBIDDEN" open_subscription_args echo
    VUndefined VUndefined connection_with_token VUndefined
    (mkWorld ∅ None) =
  (echo VUndefined VUndefined composed VUndefined, mkWorld ∅ None,
   [EvNext VUndefined VUndefined composed VUndefined]).
Proof.
  exact (wrapSubscription_without_decoder "FORBIDDEN"
           open_subscription_args echo
           VUndefined VUndefined connection_with_token VUndefined
           (mkWorld ∅ None) eq_refl eq_refl eq_refl).
Defined.

(** How the merged context is put together when the feature is enabled:
    [plugin] and [schemaModel] are the wrapper's; any other property the
    wrapper does not set comes from the connection parameters if they have
    it, and from the connection context otherwise. *)
Theorem wrapSubscription_merge_precedence
    (code : string) (resolverArgs : WrapResolverArguments) (next : resolver)
    (root args context info : value) (w : world) :
  toBoolean (get (features resolverArgs) "subscriptions") = true →
  ∀ r w' t,
    wrapSubscription code resolverArgs next root args context info w =
    (r, w', t) →
    ∀ root' args' composed info',
      EvNext root' args' composed info' ∈ t →
      getProp composed "plugin" = get (features resolverArgs) "subscriptions"
      ∧ getProp composed "schemaModel" = schemaModel resolverArgs
      ∧ ∀ k,
          k ∉ ["plugin"; "schemaModel"; "jwt"; "jwtPayloadFieldsMap"] →
          getProp composed k =
          match spread (contextParams context) !! k with
          | Some v => v
          | None => getProp context k
          end.
Proof.
  intros Hsub. refine (wp_run _ _ _ _). unfold wrapSubscription.
  rewrite Hsub. cbn [negb]. wp_paths.
  all: intros root' args' composed info' Hnext; trace_cases Hnext.
  all: simpl; unfold get; split_and!.
  all: try (erewrite lookup_union_Some_l; [reflexivity |];
            by repeat (rewrite lookup_insert_ne by done);
               rewrite lookup_insert_eq).
  all: intros k Hk; rewrite !not_elem_of_cons in Hk;
    destruct Hk as (? & ? & ? & ? & _).
  all: rewrite lookup_union_r
    by (by repeat (rewrite lookup_insert_ne by done)).
  all: rewrite lookup_union.
  all: destruct (spread (contextParams context) !! k) as [v |];
    destruct context; simpl; rewrite ?lookup_empty; try reflexivity.
  all: unfold get; by destruct (_ !! k).
Qed.

Lemma wrapSubscription_merge_precedence_witness :
  let composed :=
    VObj (<["plugin" := VHost 4]> (<["schemaModel" := VHost 3]> ∅)
          ∪ (spread (contextParams connection_with_claims)
             ∪ spread connection_with_claims)) in
  wrapSubscription "FORBIDDEN" open_subscription_args echo
    VUndefined VUndefined connection_with_claims VUndefined
    (mkWorld ∅ None) =
  (Return composed, mkWorld ∅ None,
   [EvNext VUndefined VUndefined composed VUndefined]) ∧
  getProp composed "plugin" = VHost 4 ∧
  getProp composed "schemaModel" = VHost 3 ∧
  getProp composed "tenant" = VStr "from-params" ∧
  getProp composed "locale" = VStr "en".
Proof.
  intros composed.
  assert (wrapSubscription "FORBIDDEN" open_subscription_args echo
            VUndefined VUndefined connection_with_claims VUndefined
            (mkWorld ∅ None) =
          (Return composed, mkWorld ∅ None,
           [EvNext VUndefined VUndefined composed VUndefined])) as Hrun
    by (vm_compute; reflexivity).
  destruct (wrapSubscription_merge_precedence "FORBIDDEN"
              open_subscription_args echo
              VUndefined VUndefined connection_with_claims VUndefined
              (mkWorld ∅ None) eq_refl _ _ _ Hrun
              _ _ _ _ (list_elem_of_here _ _))
    as (Hplugin & Hschema & Hother).
  split; [exact Hrun |].
  split; [exact Hplugin |]. split; [exact Hschema |]. split.
  - rewrite (Hother "tenant"); [vm_compute; reflexivity |].
    apply (bool_decide_unpack _). vm_compute. reflexivity.
  - rewrite (Hother "locale"); [vm_compute; reflexivity |].
    apply (bool_decide_unpack _). vm_compute. reflexivity.
Defined.

(** The subscription wrapper never writes the state, and it rejects a
    connection only under mandatory global authentication: any run either
    ends in the next step (after at most one decoder call) and returns what
    the next step returns, or throws, with global authentication on, the
    [Unauthenticated] error before any call or the decoder's own error
    right after the decoder call. *)
Theorem wrapSubscription_run_shape
    (code : string) (resolverArgs : WrapResolverArguments) (next : resolver)
    (root args context info : value) (w : world) :
  ∀ r w' t,
    wrapSubscription code resolverArgs next root args context info w =
    (r, w', t) →
    w' = w ∧
    ((∃ composed t0,
        t = t0 ++ [EvNext root args composed info] ∧
        r = next root args composed info ∧
        (t0 = [] ∨ ∃ token, t0 = [EvDecodeBearerToken token]))
     ∨
     (∃ a, authorization resolverArgs = Some a ∧
           globalAuthentication a = true ∧
           ((r = Throw (Neo4jError "Unauthenticated" code) ∧ t = [])
            ∨ ∃ token x,
                decodeBearerTokenWithVerify a token = Throw x ∧
                r = Throw x ∧ t = [EvDecodeBearerToken token]))).
Proof.
  refine (wp_run _ _ _ _). unfold wrapSubscription. wp_paths.
  all: split; [reflexivity |].
  all: try (left; eexists; (exists [] + eexists [_]);
            split_and!; [reflexivity | reflexivity |];
            (by left) + (right; by eexists)).
  all: right; eexists; split; [reflexivity |].
  all: match goal with
       | H : _ && _ = true |- _ => apply andb_prop in H as [_ ?]
       | _ => idtac
       end.
  all: split; [done |].
  all: try (left; done).
  all: right; do 2 eexists; split_and!; [eassumption | done | done].
Qed.

Lemma wrapSubscription_run_shape_witness :
  ∃ r w' t,
    wrapSubscription "FORBIDDEN" (subscription_args lenient) echo
      VUndefined VUndefined (VObj ∅) VUndefined (mkWorld ∅ None) =
    (r, w', t) ∧
    w' = mkWorld ∅ None ∧
    ((∃ composed t0,
        t = t0 ++ [EvNext VUndefined VUndefined composed VUndefined] ∧
        r = echo VUndefined VUndefined composed VUndefined ∧
        (t0 = [] ∨ ∃ token, t0 = [EvDecodeBearerToken token]))
     ∨
     (∃ a, authorization (subscription_args lenient) = Some a ∧
           globalAuthentication a = true ∧
           ((r = Throw (Neo4jError "Unauthenticated" "FORBIDDEN") ∧ t = [])
            ∨ ∃ token x,
                decodeBearerTokenWithVerify a token = Throw x ∧
                r = Throw x ∧ t = [EvDecodeBearerToken token]))).
Proof.
  destruct (wrapSubscription "FORBIDDEN" (subscription_args lenient) echo
              VUndefined VUndefined (VObj ∅) VUndefined (mkWorld ∅ None))
    as [[r w'] t] eqn:Hrun.
  exists r, w', t. split; [reflexivity |].
  exact (wrapSubscription_run_shape "FORBIDDEN" (subscription_args lenient)
           echo VUndefined VUndefined (VObj ∅) VUndefined (mkWorld ∅ None)
           r w' t Hrun).
Defined.

End SubscriptionFacts.

(** ** Further properties of the schema-model registry *)

Module RegistryFacts.
Import SchemaModel OperationSpec Sample Cases.

Section Registry.
Context {Attribute Annotation AnnotationKey : Type}.
Context `{Countable AnnotationKey}.
Variable attribute_name : Attribute → string.
Variable annotationToKey : Annotation → AnnotationKey.
Variable key_text : AnnotationKey → string.

Abbreviation Op := (Operation Attribute Annotation AnnotationKey).
Abbreviation entry := (attribute_entry attribute_name).
Abbreviation kind_entry := (annotation_entry annotationToKey).
Abbreviation new :=
  (new_Operation attribute_name annotationToKey key_text).

(** A construction that returns has met no repeated name and no repeated
    kind, and returns the maps built from the two lists. *)
Lemma new_Operation_inv
    (opname : string) (attrs : list Attribute) (annots : list Annotation)
    (this : Op) :
  new opname attrs annots = Return this →
  NoDup (attribute_name <$> attrs) ∧
  NoDup (annotationToKey <$> annots) ∧
  this = mkOperation opname (list_to_map (entry <$> attrs))
                     (list_to_map (kind_entry <$> annots)).
Proof.
  unfold new_Operation, constructor. unfold bind at 1.
  destruct (decide (NoDup (attribute_name <$> attrs))) as [Hattrs | Hattrs].
  - rewrite (add_attributes_run attribute_name) by done. simpl.
    destruct (decide (NoDup (annotationToKey <$> annots)))
      as [Hannots | Hannots].
    + rewrite (add_annotations_run annotationToKey key_text) by done.
      simpl. rewrite !(right_id_L ∅ (∪)). by intros [= <-].
    + destruct (first_duplicate annotationToKey annots Hannots)
        as (pre & a & post & -> & Hpre & Ha).
      rewrite (add_annotations_duplicate annotationToKey key_text);
        simpl; [done | done | done |].
      rewrite (right_id_L ∅ (∪)). apply list_to_map_is_Some.
      by rewrite annotation_keys.
  - destruct (first_duplicate attribute_name attrs Hattrs)
      as (pre & a & post & -> & Hpre & Ha).
    rewrite (add_attributes_duplicate attribute_name);
      simpl; [done | done | done |].
    rewrite (right_id_L ∅ (∪)). apply list_to_map_is_Some.
    by rewrite attribute_keys.
Qed.

Lemma new_Operation_unique
    (opname : string) (attrs : list Attribute) (annots : list Annotation) :
  NoDup (attribute_name <$> attrs) →
  NoDup (annotationToKey <$> annots) →
  new opname attrs annots =
  Return (mkOperation opname (list_to_map (entry <$> attrs))
                      (list_to_map (kind_entry <$> annots))).
Proof.
  intros Hattrs Hannots. unfold new_Operation, constructor.
  unfold bind at 1.
  rewrite (add_attributes_run attribute_name) by done. simpl.
  rewrite (add_annotations_run annotationToKey key_text) by done.
  simpl. by rewrite !(right_id_L ∅ (∪)).
Qed.

(** [addAttribute] on a name that is taken throws and leaves the operation
    exactly as it was (the stored attribute is not overwritten); on a free
    name it stores the attribute under its name and changes nothing else:
    other names, the annotations and the operation's name are as before. *)
Theorem addAttribute_contract (attribute : Attribute) (this : Op) :
  (is_Some (findAttribute this (attribute_name attribute)) →
   addAttribute attribute_name attribute this =
   (Throw (Neo4jGraphQLSchemaValidationError
             ("Attribute " +:+ attribute_name attribute
              +:+ " already exists in " +:+ name this)),
    this, []))
  ∧
  (findAttribute this (attribute_name attribute) = None →
   ∃ this',
     addAttribute attribute_name attribute this = (Return tt, this', []) ∧
     findAttribute this' (attribute_name attribute) = Some attribute ∧
     (∀ n, n ≠ attribute_name attribute →
           findAttribute this' n = findAttribute this n) ∧
     name this' = name this ∧
     annotations this' = annotations this).
Proof.
  unfold findAttribute, addAttribute, bind, read, throw, modify. split.
  - intros Htaken. by rewrite bool_decide_true.
  - intros Hfree. rewrite bool_decide_false by (rewrite Hfree; by intros []).
    eexists. split; [reflexivity |]. simpl. split_and!; [| | done | done].
    + apply lookup_insert_eq.
    + intros n Hn. by rewrite lookup_insert_ne.
Qed.

(** [addAnnotation] on a kind that is taken throws and leaves the operation
    exactly as it was; on a free kind it stores the annotation under its
    kind and changes nothing else. *)
Theorem addAnnotation_contract (annotation : Annotation) (this : Op) :
  let key := annotationToKey annotation in
  (is_Some (annotations this !! key) →
   addAnnotation annotationToKey key_text annotation this =
   (Throw (Neo4jGraphQLSchemaValidationError
             ("Annotation " +:+ key_text key
              +:+ " already exists in " +:+ name this)),
    this, []))
  ∧
  (annotations this !! key = None →
   ∃ this',
     addAnnotation annotationToKey key_text annotation this =
     (Return tt, this', []) ∧
     annotations this' !! key = Some annotation ∧
     (∀ k, k ≠ key → annotations this' !! k = annotations this !! k) ∧
     name this' = name this ∧
     attributes this' = attributes this).
Proof.
  intros key. subst key.
  unfold addAnnotation, bind, read, throw, modify. split.
  - intros Htaken. by rewrite bool_decide_true.
  - intros Hfree. rewrite bool_decide_false by (rewrite Hfree; by intros []).
    eexists. split; [reflexivity |]. simpl. split_and!; [| | done | done].
    + apply lookup_insert_eq.
    + intros n Hn. by rewrite lookup_insert_ne.
Qed.

(** On a constructed operation [findAttribute] finds exactly the attributes
    of the list, each under its own name; any other name is not found. *)
Theorem findAttribute_exact
    (opname : string) (attrs : list Attribute) (annots : list Annotation)
    (this : Op) :
  new_Operation attribute_name annotationToKey key_text
                opname attrs annots = Return this →
  ∀ n a,
    findAttribute this n = Some a ↔ a ∈ attrs ∧ attribute_name a = n.
Proof.
  intros (Hattrs & _ & ->)%new_Operation_inv n a.
  unfold findAttribute. simpl.
  rewrite <- elem_of_list_to_map by (by rewrite attribute_keys).
  rewrite list_elem_of_fmap. unfold attribute_entry. split.
  - intros (b & [= -> ->] & Hb). done.
  - intros [Ha <-]. by exists a.
Qed.

(** Construction returns exactly when the attribute names and the
    annotation kinds are without repetition; every other construction
    throws a schema validation error. *)
Theorem new_Operation_succeeds_iff
    (opname : string) (attrs : list Attribute) (annots : list Annotation) :
  ((∃ this, new_Operation attribute_name annotationToKey key_text
                opname attrs annots = Return this) ↔
   NoDup (attribute_name <$> attrs) ∧ NoDup (annotationToKey <$> annots))
  ∧
  ((∃ this, new_Operation attribute_name annotationToKey key_text
                opname attrs annots = Return this) ∨
   (∃ message, new_Operation attribute_name annotationToKey key_text
                opname attrs annots =
               Throw (Neo4jGraphQLSchemaValidationError message))).
Proof.
  split.
  - split.
    + intros [this (? & ? & _)%new_Operation_inv]. done.
    + intros [Hattrs Hannots]. eexists. by apply new_Operation_unique.
  - destruct (new opname attrs annots) as [this | e] eqn:Hnew;
      [left; by eexists | right].
    revert Hnew. unfold new_Operation, constructor. unfold bind at 1.
    destruct (decide (NoDup (attribute_name <$> attrs))) as [Hattrs | Hattrs].
    + rewrite (add_attributes_run attribute_name) by done. simpl.
      destruct (decide (NoDup (annotationToKey <$> annots)))
        as [Hannots | Hannots].
      * by rewrite (add_annotations_run annotationToKey key_text) by done.
      * destruct (first_duplicate annotationToKey annots Hannots)
          as (pre & a & post & -> & Hpre & Ha).
        rewrite (add_annotations_duplicate annotationToKey key_text);
          simpl; [intros [= <-]; by eexists | done | done |].
        rewrite (right_id_L ∅ (∪)). apply list_to_map_is_Some.
        by rewrite annotation_keys.
    + destruct (first_duplicate attribute_name attrs Hattrs)
        as (pre & a & post & -> & Hpre & Ha).
      rewrite (add_attributes_duplicate attribute_name);
        simpl; [intros [= <-]; by eexists | done | done |].
      rewrite (right_id_L ∅ (∪)). apply list_to_map_is_Some.
      by rewrite attribute_keys.
Qed.

(** A constructed operation holds what it was given and nothing else: its
    name, one entry per attribute and per annotation, and every annotation
    of the list under its kind. *)
Theorem new_Operation_contents
    (opname : string) (attrs : list Attribute) (annots : list Annotation)
    (this : Op) :
  new_Operation attribute_name annotationToKey key_text
                opname attrs annots = Return this →
  name this = opname ∧
  size (attributes this) = length attrs ∧
  size (annotations this) = length annots ∧
  (∀ a, a ∈ annots → annotations this !! annotationToKey a = Some a) ∧
  (∀ k, k ∉ annotationToKey <$> annots → annotations this !! k = None).
Proof.
  intros (Hattrs & Hannots & ->)%new_Operation_inv. simpl. split_and!.
  - done.
  - rewrite map_size_list_to_map, length_fmap by (by rewrite attribute_keys).
    done.
  - rewrite map_size_list_to_map, length_fmap
      by (by rewrite annotation_keys). done.
  - intros a Ha. apply elem_of_list_to_map_1.
    + by rewrite annotation_keys.
    + by apply (list_elem_of_fmap_2 kind_entry).
  - intros k Hk. apply not_elem_of_list_to_map_1.
    by rewrite annotation_keys.
Qed.

(** The order of the initial lists does not matter: two constructions from
    rearrangements of the same lists without repetition return the same
    operation. *)
Theorem new_Operation_order_irrelevant
    (opname : string) (attrs attrs' : list Attribute)
    (annots annots' : list Annotation) :
  NoDup (attribute_name <$> attrs) →
  NoDup (annotationToKey <$> annots) →
  attrs ≡ₚ attrs' → annots ≡ₚ annots' →
  ∃ this,
    new_Operation attribute_name annotationToKey key_text
                opname attrs annots = Return this ∧
    new_Operation attribute_name annotationToKey key_text
                  opname attrs' annots' = Return this.
Proof.
  intros Hattrs Hannots Hpa Hpn. eexists. split.
  - by apply new_Operation_unique.
  - rewrite new_Operation_unique; [| by rewrite <- Hpa | by rewrite <- Hpn].
    f_equal. f_equal.
    + symmetry. apply list_to_map_proper; [by rewrite attribute_keys |].
      by rewrite Hpa.
    + symmetry. apply list_to_map_proper; [by rewrite annotation_keys |].
      by rewrite Hpn.
Qed.
End Registry.

(** An operation that holds the attribute [id]. *)
Lemma addAttribute_contract_witness :
  let this : Operation (string * nat) (string * nat) string :=
    mkOperation "Query" {["id" := attr_id]} ∅ in
  addAttribute fst attr_id' this =
  (Throw (Neo4jGraphQLSchemaValidationError
            ("Attribute " +:+ attr_id'.1
             +:+ " already exists in " +:+ name this)),
   this, [])
  ∧
  ∃ this',
    addAttribute fst attr_title this = (Return tt, this', []) ∧
    findAttribute this' attr_title.1 = Some attr_title ∧
    (∀ n, n ≠ attr_title.1 →
          findAttribute this' n = findAttribute this n) ∧
    name this' = name this ∧
    annotations this' = annotations this.
Proof.
  intros this. split.
  - apply (proj1 (addAttribute_contract fst attr_id' this)).
    exists attr_id. reflexivity.
  - apply (proj2 (addAttribute_contract fst attr_title this)).
    reflexivity.
Defined.

(** An operation that holds an annotation of kind [cypher]. *)
Lemma addAnnotation_contract_witness :
  let this : Operation (string * nat) (string * nat) string :=
    mkOperation "Query" ∅ {["cypher" := annot_cypher]} in
  addAnnotation fst id annot_cypher' this =
  (Throw (Neo4jGraphQLSchemaValidationError
            ("Annotation " +:+ id annot_cypher'.1
             +:+ " already exists in " +:+ name this)),
   this, [])
  ∧
  ∃ this',
    addAnnotation fst id annot_key this = (Return tt, this', []) ∧
    annotations this' !! annot_key.1 = Some annot_key ∧
    (∀ k, k ≠ annot_key.1 →
          annotations this' !! k = annotations this !! k) ∧
    name this' = name this ∧
    attributes this' = attributes this.
Proof.
  intros this. split.
  - apply (proj1 (addAnnotation_contract fst id annot_cypher' this)).
    exists annot_cypher. reflexivity.
  - apply (proj2 (addAnnotation_contract fst id annot_key this)).
    reflexivity.
Defined.

Lemma findAttribute_exact_witness :
  ∃ this : Operation (string * nat) (string * nat) string,
    new_Operation fst fst id "Query" [attr_id; attr_title] [annot_cypher] =
    Return this ∧
    (findAttribute this "title" = Some attr_title ↔
     attr_title ∈ [attr_id; attr_title] ∧ attr_title.1 = "title") ∧
    (findAttribute this "rating" = Some attr_title ↔
     attr_title ∈ [attr_id; attr_title] ∧ attr_title.1 = "rating").
Proof.
  destruct (new_Operation fst fst id "Query"
              [attr_id; attr_title] [annot_cypher])
    as [this | e] eqn:Hnew; [| vm_compute in Hnew; discriminate].
  exists this. split; [reflexivity |]. split.
  - exact (findAttribute_exact fst fst id "Query" _ _ this Hnew
             "title" attr_title).
  - exact (findAttribute_exact fst fst id "Query" _ _ this Hnew
             "rating" attr_title).
Defined.

Lemma new_Operation_contents_witness :
  ∃ this : Operation (string * nat) (string * nat) string,
    new_Operation fst fst id "Query"
      [attr_id; attr_title] [annot_cypher; annot_key] = Return this ∧
    name this = "Query" ∧
    size (attributes this) = 2 ∧
    size (annotations this) = 2 ∧
    (∀ a, a ∈ [annot_cypher; annot_key] →
          annotations this !! a.1 = Some a) ∧
    (∀ k, k ∉ fst <$> [annot_cypher; annot_key] →
          annotations this !! k = None).
Proof.
  destruct (new_Operation fst fst id "Query"
              [attr_id; attr_title] [annot_cypher; annot_key])
    as [this | e] eqn:Hnew; [| vm_compute in Hnew; discriminate].
  exists this. split; [reflexivity |].
  exact (new_Operation_contents fst fst id "Query" _ _ this Hnew).
Defined.

Lemma new_Operation_order_irrelevant_witness :
  ∃ this : Operation (string * nat) (string * nat) string,
    new_Operation fst fst id "Query"
      [attr_id; attr_title] [annot_cypher; annot_key] = Return this ∧
    new_Operation fst fst id "Query"
      [attr_title; attr_id] [annot_key; annot_cypher] = Return this.
Proof.
  apply (new_Operation_order_irrelevant fst fst id "Query").
  - apply (bool_decide_eq_true_1 (NoDup _)). reflexivity.
  - apply (bool_decide_eq_true_1 (NoDup _)). reflexivity.
  - apply perm_swap.
  - apply perm_swap.
Defined.

End RegistryFacts.
